(** * certificate_watcher: the service parser, the host-file reader and the
      validation engine of [certificate_watcher.py], embedded in Rocq.

    Text is [string]: a Python [str] whose code points lie in U+0000..U+00FF,
    one [ascii] per code point.  Durations ([timedelta]) and instants
    ([datetime]) are integers counting microseconds, the resolution of both
    Python types. *)

From Stdlib Require Import ZArith List Bool Ascii String Lia.
From Stdlib Require Import Numbers.DecimalString QArith_base.
From Stdlib Require DecimalPos.
Import ListNotations.

Local Open Scope string_scope.
Local Open Scope Z_scope.

(** ** Exceptions *)

(** The classes the [except] clauses of [validate_certificate] tell apart.
    [OtherException] is any other subclass of [Exception]; [BaseOnly] is a
    [BaseException] outside [Exception] (KeyboardInterrupt, SystemExit). *)
Inductive exc_class : Type :=
| socket_timeout
| ConnectionResetError
| OtherException
| BaseOnly.

(** An exception raised by a collaborator (socket, ssl, ocspchecker,
    strptime): its class and the text [str(err)] gives. *)
Record pyexc : Type := mk_pyexc { exc_cls : exc_class; exc_str : string }.

(** The six [raise CertificateValidationError(...)] statements of
    [validate_certificate], in source order (lines 139, 141, 143, 153, 155,
    159).  The source raises one class with a message; the site is kept as a
    label of the statement that raised. *)
Inductive FailureKind : Type :=
| ConnectTimeout
| ConnectionReset
| NetworkError
| Revoked
| ExpiringSoon
| TooOld.

Inductive exception : Type :=
| ValueError (literal : string)
    (* raised by int() on [literal] *)
| IndexError
    (* a list indexed out of range *)
| CertificateValidationError (site : FailureKind) (msg : string)
| Foreign (e : pyexc)
    (* an exception of a collaborator, passing through *).

(** A call either raises or returns. *)
Inductive result (A : Type) : Type :=
| Raise (e : exception)
| Return (a : A).
Arguments Raise {A} e.
Arguments Return {A} a.

(** ** Python string primitives *)

Module PyStr.

Definition code (c : ascii) : nat := nat_of_ascii c.

Definition in_range (lo hi : nat) (c : ascii) : bool :=
  (Nat.leb lo (code c)) && (Nat.leb (code c) hi).

(** [value[1:]] *)
Definition tail (s : string) : string :=
  match s with
  | EmptyString => EmptyString
  | String _ r => r
  end.

(** The longest prefix whose characters satisfy [p], and what follows. *)
Fixpoint span (p : ascii -> bool) (s : string) : string * string :=
  match s with
  | EmptyString => (EmptyString, EmptyString)
  | String c r =>
      if p c then let (a, b) := span p r in (String c a, b)
      else (EmptyString, s)
  end.

Fixpoint rev_onto (acc s : string) : string :=
  match s with
  | EmptyString => acc
  | String c r => rev_onto (String c acc) r
  end.

Definition rev (s : string) : string := rev_onto EmptyString s.

Fixpoint forallb (p : ascii -> bool) (s : string) : bool :=
  match s with
  | EmptyString => true
  | String c r => p c && forallb p r
  end.

Definition is_empty (s : string) : bool :=
  match s with
  | EmptyString => true
  | String _ _ => false
  end.

(** [str.isspace] on one character, the set [str.strip()] removes:
    TAB..CR, FS..US, SPACE, NEL (U+0085), NBSP (U+00A0). *)
Definition is_space (c : ascii) : bool :=
  in_range 9 13 c || in_range 28 32 c
  || Nat.eqb (code c) 133 || Nat.eqb (code c) 160.

Fixpoint lstrip (p : ascii -> bool) (s : string) : string :=
  match s with
  | EmptyString => EmptyString
  | String c r => if p c then lstrip p r else s
  end.

Definition rstrip (p : ascii -> bool) (s : string) : string :=
  rev (lstrip p (rev s)).

(** [s.strip()] *)
Definition strip (s : string) : string := rstrip is_space (lstrip is_space s).

(** [s.startswith(c)] for a one-character prefix. *)
Definition startswith (c : ascii) (s : string) : bool :=
  match s with
  | EmptyString => false
  | String d _ => Ascii.eqb d c
  end.

(** [s.split(sep)] for a one-character separator: always at least one
    piece, the pieces between consecutive separators. *)
Fixpoint split (sep : ascii) (s : string) : list string :=
  match s with
  | EmptyString => [EmptyString]
  | String c r =>
      if Ascii.eqb c sep then EmptyString :: split sep r
      else match split sep r with
           | [] => [String c EmptyString]
           | piece :: pieces => String c piece :: pieces
           end
  end.

End PyStr.

(** ** [int(str)] in base 10 *)

Module PyInt.

(** Whitespace [int()] skips around the literal: the C [isspace] set, plus
    the two non-ASCII spaces below U+0100, which the conversion first turns
    into a blank.  FS..US are not in it. *)
Definition is_space (c : ascii) : bool :=
  PyStr.in_range 9 13 c || Nat.eqb (PyStr.code c) 32
  || Nat.eqb (PyStr.code c) 133 || Nat.eqb (PyStr.code c) 160.

Definition is_digit (c : ascii) : bool := PyStr.in_range 48 57 c.

Definition is_underscore (c : ascii) : bool := Nat.eqb (PyStr.code c) 95.

Definition is_body (c : ascii) : bool := is_digit c || is_underscore c.

Definition digit_value (c : ascii) : Z := Z.of_nat (PyStr.code c) - 48.

(** The scan of the digits: underscores are allowed singly and between
    digits only.  [prev] tells whether the previous character was an
    underscore (true also before the first character, which must be a
    digit). *)
Fixpoint well_grouped (prev : bool) (s : string) : bool :=
  match s with
  | EmptyString => negb prev
  | String c r =>
      if is_underscore c then negb prev && well_grouped true r
      else well_grouped false r
  end.

Fixpoint count_digits (s : string) : nat :=
  match s with
  | EmptyString => O
  | String c r => if is_digit c then S (count_digits r) else count_digits r
  end.

Fixpoint accumulate (acc : Z) (s : string) : Z :=
  match s with
  | EmptyString => acc
  | String c r =>
      if is_digit c then accumulate (10 * acc + digit_value c) r
      else accumulate acc r
  end.

(** [sys.get_int_max_str_digits()], at its default. *)
Definition max_str_digits : nat := 4300.

(** [int(s)]: blanks, an optional sign, the digits, blanks, the end. *)
Definition int (s : string) : result Z :=
  let s1 := PyStr.lstrip is_space s in
  let (negative, s2) :=
    match s1 with
    | String c r =>
        if Ascii.eqb c "-" then (true, r)
        else if Ascii.eqb c "+" then (false, r)
        else (false, s1)
    | EmptyString => (false, s1)
    end in
  let (body, s3) := PyStr.span is_body s2 in
  if negb (well_grouped true body) then Raise (ValueError s)
  else if Nat.ltb max_str_digits (count_digits body) then Raise (ValueError s)
  else if negb (PyStr.is_empty (PyStr.lstrip is_space s3)) then
    Raise (ValueError s)
  else
    let n := accumulate 0 body in
    Return (if negative then - n else n).

End PyInt.

(** ** [class Service] *)

(** The named groups of [Service.SPEC]. *)
Inductive group : Type := g_ip | g_port | g_hostname.

Definition group_eqb (a b : group) : bool :=
  match a, b with
  | g_ip, g_ip | g_port, g_port | g_hostname, g_hostname => true
  | _, _ => false
  end.

(** A match object: [lastgroup] and [group()]. *)
Record Match : Type := mk_match { lastgroup : group; mgroup : string }.

Record Service : Type := mk_service {
  description : string;
  ip : option string;
  port : Z;
  hostname : option string
}.

Module ServiceSpec.

(** [[^@:]] *)
Definition not_sigil (c : ascii) : bool :=
  negb (Ascii.eqb c "@" || Ascii.eqb c ":").

(** [[^@:]+] is greedy: it takes the whole run.  An empty run is no match. *)
Definition run (s : string) : string := fst (PyStr.span not_sigil s).

(** [SPEC] tried at the start of [s]:
    [(?P<ip>@[^@:]+)|(?P<port>:[^@:]+)|(?P<hostname>[^@:]+)],
    alternatives in order. *)
Definition match_at (s : string) : option Match :=
  match s with
  | EmptyString => None
  | String c r =>
      if Ascii.eqb c "@" then
        if PyStr.is_empty (run r) then None
        else Some (mk_match g_ip (String c (run r)))
      else if Ascii.eqb c ":" then
        if PyStr.is_empty (run r) then None
        else Some (mk_match g_port (String c (run r)))
      else Some (mk_match g_hostname (run s))
  end.

(** [re.finditer(SPEC, s)]: the matches left to right, without overlap.
    [skip] counts the characters still covered by the match found last;
    where nothing matches the scan moves one character on. *)
Fixpoint finditer_from (skip : nat) (s : string) : list Match :=
  match s with
  | EmptyString => []
  | String _ r =>
      match skip with
      | S k => finditer_from k r
      | O =>
          match match_at s with
          | Some m => m :: finditer_from (Nat.pred (String.length (mgroup m))) r
          | None => finditer_from O r
          end
      end
  end.

Definition finditer (s : string) : list Match := finditer_from O s.

End ServiceSpec.

(** The body of the [for] loop of [Service.__init__]: three [if]s in a row. *)
Definition Service_token (self : Service) (token : Match) : result Service :=
  let kind := lastgroup token in
  let value := mgroup token in
  let self1 :=
    if group_eqb kind g_ip
    then mk_service (description self) (Some (PyStr.tail value))
                    (port self) (hostname self)
    else self in
  match (if group_eqb kind g_port
         then match PyInt.int (PyStr.tail value) with
              | Raise e => Raise e
              | Return n =>
                  Return (mk_service (description self1) (ip self1) n
                                     (hostname self1))
              end
         else Return self1) with
  | Raise e => Raise e
  | Return self2 =>
      Return (if group_eqb kind g_hostname
              then mk_service (description self2) (ip self2) (port self2)
                              (Some value)
              else self2)
  end.

Fixpoint Service_loop (self : Service) (tokens : list Match) : result Service :=
  match tokens with
  | [] => Return self
  | token :: rest =>
      match Service_token self token with
      | Raise e => Raise e
      | Return self' => Service_loop self' rest
      end
  end.

(** [Service(description)] *)
Definition Service_init (description : string) : result Service :=
  Service_loop (mk_service description None 443 None)
               (ServiceSpec.finditer description).

(** ** Reading the host file ([main], lines 178-184) *)

(** The generator given to [hosts.extend]: the test is made on the line as
    read, [strip] is applied to the lines that pass it. *)
Definition hosts_of_file (contents : string) : list string :=
  map PyStr.strip
      (filter (fun host => negb (PyStr.is_empty host)
                           && negb (PyStr.startswith "#" host))
              (PyStr.split "010" contents)).

(** [hosts] after the [if args.from_file:] statement; [from_file] is what
    [args.from_file.read()] returns when the option is given. *)
Definition main_hosts (hosts : list string) (from_file : option string)
  : list string :=
  match from_file with
  | Some contents => hosts ++ hosts_of_file contents
  | None => hosts
  end.

(** ** Floating point: [timedelta.total_seconds() // 86400]

    A finite binary64 number is kept as an exact fraction [(n, d)], [d] a
    power of two. *)

Module PyFloat.

Definition float : Type := (Z * Z)%type.

(** [p / q] rounded to an integer, ties to even ([0 <= p], [0 < q]). *)
Definition round_half_even (p q : Z) : Z :=
  let d := p / q in
  let r := p mod q in
  if 2 * r <? q then d
  else if q <? 2 * r then d + 1
  else if Z.even d then d else d + 1.

(** [2^l <= p / q] *)
Definition ge_pow2 (p q l : Z) : bool :=
  if 0 <=? l then q * 2 ^ l <=? p else q <=? p * 2 ^ (- l).

(** The binary64 number nearest to [p / q], for [0 < p] and [0 < q]:
    53 significant bits, ties to even, exponent not below that of the
    subnormals.  (A quotient of 2^1024 or more has no float; no
    [timedelta] comes near.) *)
Definition nearest (p q : Z) : float :=
  let l := Z.log2 p - Z.log2 q in
  let e0 := if ge_pow2 p q l then l else l - 1 in
  let e := Z.max (e0 - 52) (- 1074) in
  if 0 <=? e then (round_half_even p (q * 2 ^ e) * 2 ^ e, 1)
  else (round_half_even (p * 2 ^ (- e)) q, 2 ^ (- e)).

(** [a / b] on integers, [0 < b]: the quotient correctly rounded. *)
Definition true_divide (a b : Z) : float :=
  if a =? 0 then (0, 1)
  else let (n, d) := nearest (Z.abs a) b in
       (if a <? 0 then - n else n, d).

(** [x // w] for a float [x] and an integer [0 < w]: the floor of the
    quotient, an integer-valued float, given here as that integer. *)
Definition floor_div (x : float) (w : Z) : Z :=
  let (n, d) := x in n / (d * w).

(** [f"{k:.0f}"] for an integer-valued float. *)
Definition format_0f (k : Z) : string := NilZero.string_of_int (Z.to_int k).

End PyFloat.

(** ** [datetime] and [timedelta] *)

Definition datetime : Type := Z.
Definition timedelta : Type := Z.

(** [timedelta(days=n)] *)
Definition days (n : Z) : timedelta := n * 86400000000.

(** [td.total_seconds()] *)
Definition total_seconds (td : timedelta) : PyFloat.float :=
  PyFloat.true_divide td 1000000.

(** [f"{td.total_seconds() // 86400:.0f}"] *)
Definition whole_days (td : timedelta) : Z :=
  PyFloat.floor_div (total_seconds td) 86400.

(** ** The collaborators and the effects of a validation *)

(** The peer certificate, as far as it is read: [cert["notAfter"]] and
    [cert["notBefore"]]. *)
Record Certificate : Type := mk_cert { notAfter : string; notBefore : string }.

(** What the outside answers.  A function gives [inl err] when the call
    raises [err]. *)
Record World : Type := mk_world {
  (* socket.create_connection((host, port), timeout) *)
  create_connection : option string -> Z -> Q -> pyexc + nat;
  (* context.wrap_socket(sock, server_hostname=...) then getpeercert() *)
  wrap_socket : nat -> option string -> pyexc + Certificate;
  (* datetime.strptime(text, "%b %d %H:%M:%S %Y GMT") *)
  strptime : string -> pyexc + datetime;
  (* the successive values of datetime.utcnow() *)
  utcnow : nat -> datetime;
  (* ocspchecker.get_ocsp_status(service) *)
  get_ocsp_status : Service -> pyexc + list string
}.

(** The calls made to the outside, in the order they are made. *)
Inductive event : Type :=
| ev_connect (address : option string) (port : Z) (timeout : Q)
| ev_handshake (server_hostname : option string)
| ev_strptime (text : string)
| ev_utcnow
| ev_ocsp (service : Service).

Record State : Type := mk_state { trace : list event; clock_reads : nat }.

Definition initial : State := mk_state [] O.

(** A computation that may call out and may raise. *)
Definition M (A : Type) : Type := State -> result A * State.

Definition ret {A} (a : A) : M A := fun st => (Return a, st).

Definition raise {A} (e : exception) : M A := fun st => (Raise e, st).

Definition bind {A B} (m : M A) (k : A -> M B) : M B :=
  fun st =>
    match m st with
    | (Raise e, st') => (Raise e, st')
    | (Return a, st') => k a st'
    end.

Notation "x <- m ;; k" := (bind m (fun x => k))
  (at level 61, m at next level, right associativity).
Notation "m ;;; k" := (bind m (fun _ => k))
  (at level 61, right associativity).

Definition log (ev : event) : M unit :=
  fun st => (Return tt, mk_state (trace st ++ [ev]) (clock_reads st)).

Definition call {A} (ev : event) (answer : pyexc + A) : M A :=
  log ev ;;;
  match answer with
  | inl err => raise (Foreign err)
  | inr a => ret a
  end.

(** [try: m  except ...: handler  else: k].  The handler sees the
    exceptions of [m] only; those it does not take (it answers [None]) go
    on unchanged. *)
Definition try_except_else {A B} (m : M A)
    (handler : exception -> option (M B)) (k : A -> M B) : M B :=
  fun st =>
    match m st with
    | (Raise e, st') =>
        match handler e with
        | Some h => h st'
        | None => (Raise e, st')
        end
    | (Return a, st') => k a st'
    end.

(** [a or b] on optional strings: [a] when it is not [None] and not empty. *)
Definition py_or (a b : option string) : option string :=
  match a with
  | Some s => if PyStr.is_empty s then b else a
  | None => b
  end.

(** [bool(n)] on an integer. *)
Definition py_bool (n : Z) : bool := negb (Z.eqb n 0).

(** [lst[i]] *)
Definition getitem {A} (lst : list A) (i : nat) : M A :=
  match nth_error lst i with
  | Some a => ret a
  | None => raise IndexError
  end.

Section Engine.

Variable W : World.

(** [get_server_certificate(service, timeout)] *)
Definition get_server_certificate (service : Service) (timeout : Q)
  : M Certificate :=
  let address := py_or (ip service) (hostname service) in
  sock <- call (ev_connect address (port service) timeout)
               (create_connection W address (port service) timeout) ;;
  call (ev_handshake (hostname service))
       (wrap_socket W sock (hostname service)).

(** [datetime.utcnow()] *)
Definition now : M datetime :=
  fun st => (Return (utcnow W (clock_reads st)),
             mk_state (trace st ++ [ev_utcnow]) (S (clock_reads st))).

(** The three [except] clauses, tried in order. *)
Definition fetch_handler (e : exception) : option (M unit) :=
  match e with
  | Foreign err =>
      match exc_cls err with
      | socket_timeout =>
          Some (raise (CertificateValidationError ConnectTimeout
                         "connect timeout"))
      | ConnectionResetError =>
          Some (raise (CertificateValidationError ConnectionReset
                         "Connection reset"))
      | OtherException =>
          Some (raise (CertificateValidationError NetworkError (exc_str err)))
      | BaseOnly => None
      end
  | ValueError lit => None
  | IndexError => None
  | CertificateValidationError _ _ => None
  end.

Definition days_message (prefix : string) (td : timedelta) (suffix : string)
  : string :=
  prefix ++ PyFloat.format_0f (whole_days td) ++ suffix.

(** [validate_certificate(service, limitlow, limithigh, check_ocsp, delay)] *)
Definition validate_certificate (service : Service)
    (limitlow limithigh : timedelta) (check_ocsp : Z) (delay : Q) : M unit :=
  try_except_else (get_server_certificate service delay) fetch_handler
    (fun cert =>
       not_after <- call (ev_strptime (notAfter cert))
                         (strptime W (notAfter cert)) ;;
       not_before <- call (ev_strptime (notBefore cert))
                          (strptime W (notBefore cert)) ;;
       t1 <- now ;;
       let expire_in := not_after - t1 in
       t2 <- now ;;
       let certificate_age := t2 - not_before in
       revoked <-
         (if py_bool check_ocsp then
            status <- call (ev_ocsp service) (get_ocsp_status W service) ;;
            line <- getitem status 2 ;;
            ret (String.eqb line "OCSP Status: REVOKED")
          else ret false) ;;
       if revoked : bool then
         raise (CertificateValidationError Revoked "OCSP Satus: REVOKED")
       else if expire_in <? limitlow then
         raise (CertificateValidationError ExpiringSoon
                  (days_message "Certificate expires in " expire_in " days"))
       else if limithigh <? certificate_age then
         raise (CertificateValidationError TooOld
                  (days_message "Certificate is too old (has been created "
                                certificate_age " days ago)"))
       else ret tt).

End Engine.

(** ** Notions the statements below are phrased with *)

(** What a run of [validate_certificate] gave, and the calls it made. *)
Definition outcome {A} (r : result A * State) : result A := fst r.
Definition calls {A} (r : result A * State) : list event := trace (snd r).

Definition is_ocsp_call (ev : event) : bool :=
  match ev with
  | ev_ocsp _ => true
  | _ => false
  end.

(** The calls a fetch makes: the connection, then the handshake. *)
Definition is_fetch_call (ev : event) : bool :=
  match ev with
  | ev_connect _ _ _ | ev_handshake _ => true
  | _ => false
  end.

(** The kinds raised by the policy checks, not by the fetch. *)
Definition policy_kind (k : FailureKind) : bool :=
  match k with
  | Revoked | ExpiringSoon | TooOld => true
  | ConnectTimeout | ConnectionReset | NetworkError => false
  end.

(** The floor of a duration in whole days, on the exact duration. *)
Definition floor_days (td : timedelta) : Z := td / 86400000000.

(** 2^34 seconds, about 544 years: below it the floating-point day count
    is the floor. *)
Definition exact_range : timedelta := 2 ^ 34 * 1000000.

(** The revocation answer the engine goes on from: the check is off, or
    the checker returned a list whose third line is not the marker. *)
Definition not_revoked (W : World) (service : Service) (check_ocsp : Z)
  : Prop :=
  py_bool check_ocsp = false
  \/ exists status line,
       get_ocsp_status W service = inr status
       /\ nth_error status 2 = Some line
       /\ String.eqb line "OCSP Status: REVOKED" = false.

(** The expiry and age checks as the specification words them, with the
    exact floor for the day counts. *)
Definition policy_verdict (expires_in age min_remaining max_age : timedelta)
  : result unit :=
  if expires_in <? min_remaining then
    Raise (CertificateValidationError ExpiringSoon
             ("Certificate expires in "
              ++ PyFloat.format_0f (floor_days expires_in) ++ " days"))
  else if max_age <? age then
    Raise (CertificateValidationError TooOld
             ("Certificate is too old (has been created "
              ++ PyFloat.format_0f (floor_days age) ++ " days ago)"))
  else Return tt.

(** The same checks with the day counts the code computes. *)
Definition policy_checks (expires_in age min_remaining max_age : timedelta)
  : result unit :=
  if expires_in <? min_remaining then
    Raise (CertificateValidationError ExpiringSoon
             (days_message "Certificate expires in " expires_in " days"))
  else if max_age <? age then
    Raise (CertificateValidationError TooOld
             (days_message "Certificate is too old (has been created "
                           age " days ago)"))
  else Return tt.

(** Parts and literals *)

(** The last match of group [g] in scan order. *)
Fixpoint last_of (g : group) (ms : list Match) : option Match :=
  match ms with
  | [] => None
  | m :: rest =>
      match last_of g rest with
      | Some m' => Some m'
      | None => if group_eqb (lastgroup m) g then Some m else None
      end
  end.

(** A hostname or IP text: not empty, without '@' and ':'. *)
Definition part (w : string) : Prop :=
  w <> EmptyString /\ PyStr.forallb ServiceSpec.not_sigil w = true.

(** An unsigned decimal integer, within the length [int()] converts. *)
Definition decimal (p : string) : Prop :=
  p <> EmptyString /\ PyStr.forallb PyInt.is_digit p = true
  /\ (String.length p <= PyInt.max_str_digits)%nat.

(** Its value, digit by position. *)
Fixpoint decimal_value (p : string) : Z :=
  match p with
  | EmptyString => 0
  | String c r =>
      PyInt.digit_value c * 10 ^ Z.of_nat (String.length r) + decimal_value r
  end.

(** The token begins with a hostname part. *)
Definition starts_with_host (d : string) : bool :=
  match d with
  | EmptyString => false
  | String c _ => ServiceSpec.not_sigil c
  end.

(** The end of a part: the end of the text, or a sigil. *)
Definition boundary (s : string) : bool := negb (starts_with_host s).

(** The hostname as the text field the specification speaks of: the
    empty text when the descriptor has none (Python's None). *)
Definition hostname_text (s : Service) : string :=
  match hostname s with
  | Some h => h
  | None => EmptyString
  end.

(** The invariant of the descriptor as the specification states it. *)
Definition descriptor_invariant (s : Service) : Prop :=
  (exists h, hostname s = Some h /\ h <> EmptyString) /\ 0 < port s.

(** Every port part is a literal [int()] converts. *)
Definition ports_numeric (d : string) : Prop :=
  forall m, In m (ServiceSpec.finditer d) -> lastgroup m = g_port ->
            exists n, PyInt.int (PyStr.tail (mgroup m)) = Return n.

(** Lines of the host file *)

Definition newline : ascii := "010"%char.

(** The text of a file whose lines are [lines], a newline between each two. *)
Fixpoint join_lines (lines : list string) : string :=
  match lines with
  | [] => EmptyString
  | [l] => l
  | l :: rest => l ++ String newline (join_lines rest)
  end.

(** A line holds no newline. *)
Definition one_line (l : string) : Prop :=
  PyStr.forallb (fun c => negb (Ascii.eqb c newline)) l = true.

(** The tokens the lines give, in order: nothing for a line of no
    characters or one whose first character is '#', the stripped line for
    any other. *)
Fixpoint tokens_of_lines (lines : list string) : list string :=
  match lines with
  | [] => []
  | EmptyString :: rest => tokens_of_lines rest
  | String c r :: rest =>
      if Ascii.eqb c "#" then tokens_of_lines rest
      else PyStr.strip (String c r) :: tokens_of_lines rest
  end.

(** The lines skipped if blank lines and indented comments were skipped
    too: those empty or beginning with '#' once stripped. *)
Definition tokens_skipping_blank (lines : list string) : list string :=
  filter (fun token => negb (PyStr.is_empty token)
                       && negb (PyStr.startswith "#" token))
         (map PyStr.strip lines).

(** ** Scenarios *)

Module Scenario.

Definition example_com : Service :=
  mk_service "example.com" None 443 (Some "example.com").

(** Instants count microseconds from 0001-01-01; [midnight n] is the start
    of the day of proleptic ordinal [n] (2026-11-04 is day 739924). *)
Definition midnight (ordinal : Z) : datetime := (ordinal - 1) * 86400000000.

Definition today : datetime := midnight 739924.

Definition ten_seconds : Q := Qmake 10 1.

(** Three certificates issued on 2026-10-25, ten days before [today]. *)
Definition cert_2571 : Certificate :=
  mk_cert "Apr  3 00:00:00 2571 GMT" "Oct 25 00:00:00 2026 GMT".

Definition cert_nov9 : Certificate :=
  mk_cert "Nov  9 00:00:00 2026 GMT" "Oct 25 00:00:00 2026 GMT".

Definition cert_2027 : Certificate :=
  mk_cert "May 23 00:00:00 2027 GMT" "Oct 25 00:00:00 2026 GMT".

(** A world in which the connection answers [connection], the handshake
    gives the certificate [c], whose dates read as [not_after] and
    [not_before], the clock gives [t1] then [t2], and the revocation
    checker answers [ocsp]. *)
Definition world (connection : pyexc + nat) (c : Certificate)
    (not_after not_before t1 t2 : datetime) (ocsp : pyexc + list string)
  : World :=
  mk_world (fun _ _ _ => connection)
           (fun _ _ => inr c)
           (fun text => if String.eqb text (notAfter c) then inr not_after
                        else inr not_before)
           (fun n => match n with O => t1 | S _ => t2 end)
           (fun _ => ocsp).

Definition good_status : list string :=
  ["Host: example.com:443"; "OCSP URL: http://ocsp.example.com";
   "OCSP Status: GOOD"].

Definition revoked_status : list string :=
  ["Host: example.com:443"; "OCSP URL: http://ocsp.example.com";
   "OCSP Status: REVOKED"].

(** The certificate ends on 2571-04-03 (day 938766) and is seen one
    microsecond after midnight on 2026-11-04: 198842 days less a
    microsecond remain. *)
Definition far_future : World :=
  world (inr 3%nat) cert_2571 (midnight 938766) (midnight 739914)
        (today + 1) (today + 2) (inr good_status).

(** Five days remain, the certificate is ten days old. *)
Definition five_days_left : World :=
  world (inr 3%nat) cert_nov9 (today + days 5) (today - days 10)
        today today (inr good_status).

(** 200 days remain, ten days old, and the checker says revoked. *)
Definition revoked : World :=
  world (inr 3%nat) cert_2027 (today + days 200) (today - days 10)
        today today (inr revoked_status).

(** The connection times out. *)
Definition timed_out : World :=
  world (inl (mk_pyexc socket_timeout "timed out")) cert_2027
        (today + days 200) (today - days 10) today today (inr good_status).

(** The checker itself fails. *)
Definition checker_fails : World :=
  world (inr 3%nat) cert_2027 (today + days 200) (today - days 10)
        today today
        (inl (mk_pyexc OtherException
                "HTTPSConnectionPool: Max retries exceeded")).

End Scenario.

(** ** [Service.__repr__] and [main] *)

(** [repr(service)], which [str(service)] falls back on. *)
Definition Service_repr (self : Service) : string := description self.

Module Main.

(** What [parse_args()] returns.  The counters are integers; [low],
    [high] and [delay] are the defaults (an int, an int, a float) or the
    text given on the command line; [from_file] is the text
    [args.from_file.read()] returns when the option was given. *)
Record Namespace : Type := mk_args {
  hosts : list string;
  verbose : Z;
  csv : Z;
  attention : Z;
  ocsp : Z;
  low : Z + string;
  high : Z + string;
  delay : Q + string;
  from_file : option string
}.

(** What is written on standard output: a row handed to the csv writer
    (with the delimiter the writer was made with), or a [print]. *)
Inductive output : Type :=
| writerow (delimiter : ascii) (row : list string)
| print (text : string).

(** The calls made so far and the output written so far. *)
Record Run : Type := mk_run { net : State; out : list output }.

Definition start : Run := mk_run initial [].

Definition IO (A : Type) : Type := Run -> result A * Run.

Definition io_ret {A} (a : A) : IO A := fun r => (Return a, r).

Definition io_bind {A B} (m : IO A) (k : A -> IO B) : IO B :=
  fun r =>
    match m r with
    | (Raise e, r') => (Raise e, r')
    | (Return a, r') => k a r'
    end.

Notation "x <~ m ;; k" := (io_bind m (fun x => k))
  (at level 61, m at next level, right associativity).

(** A call that touches neither the network nor the output. *)
Definition eval {A} (x : result A) : IO A := fun r => (x, r).

(** A computation of the engine, run on the network state. *)
Definition lift {A} (m : M A) : IO A :=
  fun r => let (x, st) := m (net r) in (x, mk_run st (out r)).

Definition emit (o : output) : IO unit :=
  fun r => (Return tt, mk_run (net r) (out r ++ [o])).

(** [int(x)] for an int or a text. *)
Definition int_arg (x : Z + string) : result Z :=
  match x with
  | inl n => Return n
  | inr text => PyInt.int text
  end.

(** [timedelta(days=n)]: the C constructor takes the days as a C int and
    then checks the range of [timedelta]; both failures are
    OverflowError. *)
Definition timedelta_days (n : Z) : result timedelta :=
  if (n <? - 2147483648) || (2147483647 <? n) then
    Raise (Foreign (mk_pyexc OtherException
                      "Python int too large to convert to C int"))
  else if (n <? - 999999999) || (999999999 <? n) then
    Raise (Foreign (mk_pyexc OtherException
                      ("days=" ++ NilZero.string_of_int (Z.to_int n)
                       ++ "; must have magnitude <= 999999999")))
  else Return (days n).

(** The bell, [chr(7)]. *)
Definition bell : string := String "007" EmptyString.

Fixpoint for_each (items : list string) (body : string -> IO unit)
  : IO unit :=
  match items with
  | [] => io_ret tt
  | item :: rest => _ <~ body item ;; for_each rest body
  end.

Section Program.

Variable W : World.

(** [float(text)]; its value is only handed on to the connection. *)
Variable float : string -> result Q.

(** [float(x)] for a float or a text. *)
Definition float_arg (x : Q + string) : result Q :=
  match x with
  | inl q => Return q
  | inr text => float text
  end.

(** One turn of the [for] loop of [main]: [Service(host)], then the
    [try] statement.  The arguments of the call are evaluated in order
    before it. *)
Definition check (delimiter : ascii) (verbose csv attention ocsp low high : Z)
    (delay : Q) (host : string) : IO unit :=
  service <~ eval (Service_init host) ;;
  fun r =>
    match (limitlow <~ eval (timedelta_days low) ;;
           limithigh <~ eval (timedelta_days high) ;;
           lift (validate_certificate W service limitlow limithigh ocsp
                                      delay)) r with
    | (Raise (CertificateValidationError _ msg), r') =>
        (_ <~ emit (writerow delimiter [Service_repr service; msg]) ;;
         if negb (py_bool csv) && py_bool attention then emit (print bell)
         else io_ret tt) r'
    | (Raise e, r') => (Raise e, r')
    | (Return _, r') =>
        (if py_bool verbose
         then emit (writerow delimiter [Service_repr service; "OK"])
         else io_ret tt) r'
    end.

(** [main()] from the parsed arguments on. *)
Definition main (args : Namespace) : IO unit :=
  low <~ eval (int_arg (low args)) ;;
  high <~ eval (int_arg (high args)) ;;
  delay <~ eval (float_arg (delay args)) ;;
  delimiter <~ (if 0 <? csv args
                then _ <~ emit (writerow ";" ["Service"; "Status"]) ;;
                     io_ret ";"%char
                else io_ret ":"%char) ;;
  for_each (main_hosts (hosts args) (from_file args))
           (check delimiter (verbose args) (csv args) (attention args)
                  (ocsp args) low high delay).

End Program.

End Main.

(** ** Notions for the statements about a run *)




(** The rows among the output, and the prints. *)
Fixpoint rows (o : list Main.output) : list (list string) :=
  match o with
  | [] => []
  | Main.writerow _ row :: rest => row :: rows rest
  | Main.print _ :: rest => rows rest
  end.

Definition is_print (o : Main.output) : bool :=
  match o with
  | Main.print _ => true
  | Main.writerow _ _ => false
  end.

Definition row_delimiter (o : Main.output) : option ascii :=
  match o with
  | Main.writerow d _ => Some d
  | Main.print _ => None
  end.

(** The first field of a row. *)
Definition first_field (row : list string) : string := hd EmptyString row.

(** The outcomes the loop of [main] goes on after. *)
Definition handled (x : result unit) : Prop :=
  match x with
  | Return _ => True
  | Raise (CertificateValidationError _ _) => True
  | Raise _ => False
  end.

(** Nothing is left to strip on the left of [s]: it is empty or begins
    with a character outside [p]. *)
Definition left_stripped (p : ascii -> bool) (s : string) : Prop :=
  match s with
  | EmptyString => True
  | String c _ => p c = false
  end.

(** The header row of the CSV mode. *)
Definition header : Main.output := Main.writerow ";" ["Service"; "Status"].

(** The delimiter of the writer [main] makes. *)
Definition delimiter_of (args : Main.Namespace) : ascii :=
  if 0 <? Main.csv args then ";"%char else ":"%char.

(** The hosts [main] goes through: the positional ones, then those of the
    file. *)
Definition all_hosts (args : Main.Namespace) : list string :=
  main_hosts (Main.hosts args) (Main.from_file args).

(** Every row is followed at once by a print, and there is no other
    print. *)
Fixpoint belled (o : list Main.output) : bool :=
  match o with
  | [] => true
  | Main.writerow _ _ :: Main.print _ :: rest => belled rest
  | _ => false
  end.

(** ** Sample runs *)

Module Runs.

(** What [strptime] raises on a text that is no date. *)
Definition unreadable (text : string) : pyexc :=
  mk_pyexc OtherException
    ("time data '" ++ text
     ++ "' does not match format '%b %d %H:%M:%S %Y GMT'").

(** The dates of the certificates below, read on 2026-11-04. *)
Definition read_date (text : string) : pyexc + datetime :=
  if String.eqb text "May 23 00:00:00 2027 GMT"
  then inr (Scenario.today + days 200)
  else if String.eqb text "Oct 25 00:00:00 2026 GMT"
  then inr (Scenario.today - days 10)
  else if String.eqb text "Nov  4 00:00:00 2024 GMT"
  then inr (Scenario.today - days 730)
  else if String.eqb text "Nov  1 00:00:00 2026 GMT"
  then inr (Scenario.today - days 3)
  else inl (unreadable text).

Definition is_host (name : string) (address : option string) : bool :=
  match address with
  | Some a => String.eqb a name
  | None => false
  end.

(** Issued two years ago. *)
Definition old_cert : Certificate :=
  mk_cert "May 23 00:00:00 2027 GMT" "Nov  4 00:00:00 2024 GMT".

(** Ended three days ago. *)
Definition ended_cert : Certificate :=
  mk_cert "Nov  1 00:00:00 2026 GMT" "Oct 25 00:00:00 2026 GMT".

(** A world that hands out the certificate [c] to everyone, at a clock
    that stands at [Scenario.today], with the checker answering [ocsp]. *)
Definition serving (c : Certificate) (ocsp : list string) : World :=
  mk_world (fun _ _ _ => inr 3%nat) (fun _ _ => inr c) read_date
           (fun _ => Scenario.today) (fun _ => inr ocsp).

(** Every host serves a certificate ten days old with 200 days left. *)
Definition healthy : World := serving Scenario.cert_2027 Scenario.good_status.

(** The expiry date, or the start date, is no date. *)
Definition garbled_expiry : World :=
  serving (mk_cert "never" "Oct 25 00:00:00 2026 GMT") Scenario.good_status.

Definition garbled_start : World :=
  serving (mk_cert "May 23 00:00:00 2027 GMT" "never") Scenario.good_status.

(** The checker answers with two lines only. *)
Definition two_lines : World :=
  serving Scenario.cert_2027
          ["Host: example.com:443"; "Error: no OCSP URL in the certificate"].

Definition ended : World := serving ended_cert Scenario.good_status.

(** A network on which [down.example] does not answer in time,
    [old.example] serves [old_cert] and every other host a certificate ten
    days old with 200 days left. *)
Definition network : World :=
  mk_world
    (fun address _ _ =>
       if is_host "down.example" address
       then inl (mk_pyexc socket_timeout "timed out")
       else inr 3%nat)
    (fun _ server_hostname =>
       if is_host "old.example" server_hostname then inr old_cert
       else inr Scenario.cert_2027)
    read_date
    (fun _ => Scenario.today)
    (fun _ => inr Scenario.good_status).

(** Every host serves the healthy certificate; the checker answers with
    two lines for [old.example] and with a good status otherwise. *)
Definition flaky_checker : World :=
  mk_world (fun _ _ _ => inr 3%nat) (fun _ _ => inr Scenario.cert_2027)
           read_date (fun _ => Scenario.today)
           (fun service =>
              if String.eqb (description service) "old.example"
              then inr ["Host: old.example:443";
                        "Error: no OCSP URL in the certificate"]
              else inr Scenario.good_status).

(** The host file of the runs: two hosts and a comment. *)
Definition listed : string :=
  "old.example"
  ++ String newline
       ("# spare"
        ++ String newline
             (" down.example:8443 " ++ String newline EmptyString)).

(** [float] of these runs; the delay is the default, a number, so that no
    text is handed to it. *)
Definition float (text : string) : result Q :=
  Raise (Foreign (mk_pyexc OtherException
                    ("could not convert string to float: '" ++ text ++ "'"))).

(** [example.com] on the command line and the hosts of [listed], with the
    default upper limit and delay. *)
Definition args (verbose csv attention : Z) (low : Z + string)
  : Main.Namespace :=
  Main.mk_args ["example.com"] verbose csv attention 0 low (inl 365)
               (inl Scenario.ten_seconds) (Some listed).


End Runs.

(** * Properties *)

(** ** The model on sample inputs

    Values the Python functions give on the same inputs. *)

Example finditer_all_parts :
  ServiceSpec.finditer "h:1:2@a@b"
  = [mk_match g_hostname "h"; mk_match g_port ":1"; mk_match g_port ":2";
     mk_match g_ip "@a"; mk_match g_ip "@b"].
Proof. reflexivity. Qed.

Example finditer_lone_sigils :
  ServiceSpec.finditer "::" = [] /\ ServiceSpec.finditer "@@a" = [mk_match g_ip "@a"]
  /\ ServiceSpec.finditer "a@:b" = [mk_match g_hostname "a"; mk_match g_port ":b"].
Proof. repeat split. Qed.

Example int_accepts :
  map PyInt.int [" 12 "; "+12"; "-12"; "1_000"; "007"; "-0"]
  = [Return 12; Return 12; Return (-12); Return 1000; Return 7; Return 0].
Proof. reflexivity. Qed.

Example int_rejects :
  map PyInt.int [""; " "; "abc"; "--1"; "- 1"; "_1"; "1_"; "1__0"; "1 2"; "1.0"]
  = map (fun s => Raise (ValueError s))
        [""; " "; "abc"; "--1"; "- 1"; "_1"; "1_"; "1__0"; "1 2"; "1.0"].
Proof. reflexivity. Qed.

Example split_keeps_empty_pieces :
  PyStr.split "010" (String "a" (String "010" (String "010" (String "b"
                      (String "010" EmptyString)))))
  = ["a"; ""; "b"; ""].
Proof. reflexivity. Qed.

Example whole_days_samples :
  map whole_days [0; -1; days 5; days (-5) + 3000000; days 400 + 1]
  = [0; -1; 5; -5; 400].
Proof. vm_compute. reflexivity. Qed.

(** 17179948799.999999 seconds round to 17179948800.0. *)
Example total_seconds_rounds_up :
  total_seconds (days 198842 - 1) = (17179948800 * 2 ^ 18, 2 ^ 18).
Proof. vm_compute. reflexivity. Qed.

(** ** The engine *)

Section EngineFacts.

Variable W : World.

Lemma fetch_raises_foreign service delay st e st' :
  get_server_certificate W service delay st = (Raise e, st') ->
  exists err, e = Foreign err /\ forallb is_fetch_call
                                   (skipn (List.length (trace st)) (trace st'))
                                 = true.
Proof.
  unfold get_server_certificate, bind, call, log, ret, raise; simpl.
  destruct (create_connection W _ _ _) as [err|sock]; simpl.
  - intros H; inversion H; subst; simpl. exists err; split; [reflexivity|].
    rewrite skipn_app, skipn_all, Nat.sub_diag; reflexivity.
  - destruct (wrap_socket W sock _) as [err|cert]; simpl; intros H;
      inversion H; subst; simpl.
    exists err; split; [reflexivity|].
    rewrite <- app_assoc, skipn_app, skipn_all, Nat.sub_diag; reflexivity.
Qed.

Lemma fetch_keeps_clock service delay st r st' :
  get_server_certificate W service delay st = (r, st') ->
  clock_reads st' = clock_reads st.
Proof.
  unfold get_server_certificate, bind, call, log, ret, raise; simpl.
  destruct (create_connection W _ _ _) as [err|sock]; simpl.
  - intros H; inversion H; reflexivity.
  - destruct (wrap_socket W sock _) as [err|cert]; simpl; intros H;
      inversion H; reflexivity.
Qed.

(** After a fetch that returned, with both dates read: what the [else]
    branch does from the revocation check on. *)
Lemma validate_after_fetch service low high check_ocsp delay st cert st1
      na nb :
  get_server_certificate W service delay st = (Return cert, st1) ->
  strptime W (notAfter cert) = inr na ->
  strptime W (notBefore cert) = inr nb ->
  let read := [ev_strptime (notAfter cert); ev_strptime (notBefore cert);
               ev_utcnow; ev_utcnow] in
  let st2 := mk_state (trace st1 ++ read) (S (S (clock_reads st))) in
  let st3 := mk_state (trace st1 ++ read ++ [ev_ocsp service])
                      (S (S (clock_reads st))) in
  let expire_in := na - utcnow W (clock_reads st) in
  let age := utcnow W (S (clock_reads st)) - nb in
  validate_certificate W service low high check_ocsp delay st =
  if py_bool check_ocsp then
    match get_ocsp_status W service with
    | inl err => (Raise (Foreign err), st3)
    | inr status =>
        match nth_error status 2 with
        | None => (Raise IndexError, st3)
        | Some line =>
            if String.eqb line "OCSP Status: REVOKED" then
              (Raise (CertificateValidationError Revoked "OCSP Satus: REVOKED"),
               st3)
            else (policy_checks expire_in age low high, st3)
        end
    end
  else (policy_checks expire_in age low high, st2).
Proof.
  intros Hf Ha Hb; cbv zeta.
  pose proof (fetch_keeps_clock _ _ _ _ _ Hf) as Hc.
  unfold validate_certificate, try_except_else. rewrite Hf.
  unfold bind, call, log, now, ret, raise, getitem, policy_checks; simpl.
  rewrite Ha; simpl. rewrite Hb; simpl. rewrite Hc.
  repeat rewrite <- app_assoc; simpl.
  destruct (py_bool check_ocsp); simpl.
  - destruct (get_ocsp_status W service) as [err|status]; simpl;
      repeat rewrite <- app_assoc; simpl; [reflexivity|].
    destruct status as [|? [|? [|line ?]]]; simpl; try reflexivity.
    unfold ret; simpl.
    destruct (String.eqb line _); simpl; [reflexivity|].
    repeat (match goal with |- context [if ?b then _ else _] =>
                              destruct b end; try reflexivity).
  - repeat (match goal with |- context [if ?b then _ else _] =>
                              destruct b end; try reflexivity).
Qed.

End EngineFacts.

(** ** The day count *)

Section DayCount.

Local Open Scope Z_scope.

(** Rounding to nearest moves by half a unit at most. *)
Lemma round_half_even_near p q :
  0 < q ->
  2 * p - q <= 2 * (PyFloat.round_half_even p q * q) <= 2 * p + q.
Proof.
  intros Hq. unfold PyFloat.round_half_even.
  pose proof (Z.div_mod p q ltac:(lia)) as Hdm.
  pose proof (Z.mod_pos_bound p q Hq) as Hr.
  set (d := p / q) in *. set (r := p mod q) in *.
  destruct (2 * r <? q) eqn:E1; [apply Z.ltb_lt in E1; nia|].
  apply Z.ltb_ge in E1.
  destruct (q <? 2 * r) eqn:E2; [apply Z.ltb_lt in E2; nia|].
  apply Z.ltb_ge in E2.
  destruct (Z.even d); nia.
Qed.

(** A numerator within half a unit of [x * T / 10^6], over the
    denominator [T] of at least 2^19, has the floor of [x] in days. *)
Lemma scaled_floor x m T :
  524288 <= T ->
  2 * x * T - 1000000 <= 2 * (m * 1000000) <= 2 * x * T + 1000000 ->
  m / (T * 86400) = x / 86400000000.
Proof.
  intros HT [Hlo Hhi].
  pose proof (Z.div_mod x 86400000000 ltac:(lia)) as Hdm.
  pose proof (Z.mod_pos_bound x 86400000000 ltac:(lia)) as Hr.
  set (k := x / 86400000000) in *. set (r := x mod 86400000000) in *.
  symmetry. apply Z.div_unique with (r := m - T * 86400 * k).
  - left. nia.
  - ring.
Qed.

(** Below 2^34 seconds the exponent of the nearest float is -19 at most. *)
Lemma nearest_small p :
  0 < p < exact_range ->
  exists s, 19 <= s /\
    PyFloat.nearest p 1000000
    = (PyFloat.round_half_even (p * 2 ^ s) 1000000, 2 ^ s).
Proof.
  unfold exact_range. intros [Hp Hlt].
  unfold PyFloat.nearest.
  change (Z.log2 1000000) with 19.
  assert (Hl : Z.log2 p < 54).
  { apply Z.log2_lt_pow2; [assumption|]. 
    change (2 ^ 54) with 18014398509481984.
    change (2 ^ 34) with 17179869184 in Hlt. lia. }
  set (l := Z.log2 p - 19) in *.
  set (e0 := if PyFloat.ge_pow2 p 1000000 l then l else l - 1).
  assert (He0 : e0 <= 33).
  { unfold e0. destruct (PyFloat.ge_pow2 p 1000000 l) eqn:E; [|lia].
    destruct (Z.eq_dec l 34) as [->|]; [|lia].
    unfold PyFloat.ge_pow2 in E. simpl in E.
    apply Z.leb_le in E. change (2 ^ 34) with 17179869184 in Hlt. lia. }
  set (e := Z.max (e0 - 52) (- 1074)).
  assert (He : e <= -19) by lia.
  destruct (0 <=? e) eqn:E; [apply Z.leb_le in E; lia|].
  exists (- e). split; [lia|reflexivity].
Qed.

(** The day count of the code is the floor of the duration in whole days,
    for durations of less than 2^34 seconds either way. *)
Lemma whole_days_exact td :
  Z.abs td < exact_range -> whole_days td = floor_days td.
Proof.
  intros Hb. unfold whole_days, total_seconds, floor_days, PyFloat.true_divide.
  destruct (td =? 0) eqn:E0.
  - apply Z.eqb_eq in E0; subst; reflexivity.
  - apply Z.eqb_neq in E0.
    destruct (nearest_small (Z.abs td) ltac:(lia)) as (s & Hs & ->).
    assert (HT : 524288 <= 2 ^ s).
    { change 524288 with (2 ^ 19). apply Z.pow_le_mono_r; lia. }
    pose proof (round_half_even_near (Z.abs td * 2 ^ s) 1000000 ltac:(lia))
      as Hn.
    set (m := PyFloat.round_half_even (Z.abs td * 2 ^ s) 1000000) in *.
    unfold PyFloat.floor_div.
    destruct (td <? 0) eqn:En.
    + apply Z.ltb_lt in En. apply scaled_floor; [assumption|].
      rewrite Z.abs_neq in Hn by lia. lia.
    + apply Z.ltb_ge in En. apply scaled_floor; [assumption|].
      rewrite Z.abs_eq in Hn by lia. lia.
Qed.

End DayCount.

Section EngineClaims.

Variable W : World.

Lemma validate_fetch_failed service low high check_ocsp delay st err st1 :
  get_server_certificate W service delay st = (Raise (Foreign err), st1) ->
  validate_certificate W service low high check_ocsp delay st =
  match exc_cls err with
  | socket_timeout =>
      (Raise (CertificateValidationError ConnectTimeout "connect timeout"), st1)
  | ConnectionResetError =>
      (Raise (CertificateValidationError ConnectionReset "Connection reset"),
       st1)
  | OtherException =>
      (Raise (CertificateValidationError NetworkError (exc_str err)), st1)
  | BaseOnly => (Raise (Foreign err), st1)
  end.
Proof.
  intros Hf. unfold validate_certificate, try_except_else. rewrite Hf.
  simpl. destruct (exc_cls err); reflexivity.
Qed.

(** C1 (amended).  After a fetch that returned, with the revocation check
    off or not reporting revoked: if expiresIn < minRemaining the engine
    raises at the ExpiringSoon site with "Certificate expires in <N> days",
    otherwise if age > maxAge at the TooOld site with "Certificate is too
    old (has been created <N> days ago)", otherwise it returns.  N is the
    day count computed in floating point, which is the floor of the
    duration in whole days (toward negative infinity) whenever the
    duration is less than 2^34 seconds either way.  With 20 days left and
    minRemaining 15 days (and the age within maxAge) the result is Ok; with
    5 days left and minRemaining 15 days it is ExpiringSoon with
    "Certificate expires in 5 days". *)
Theorem validate_policy service low high check_ocsp delay st cert st1 na nb :
  get_server_certificate W service delay st = (Return cert, st1) ->
  strptime W (notAfter cert) = inr na ->
  strptime W (notBefore cert) = inr nb ->
  not_revoked W service check_ocsp ->
  let expires_in := na - utcnow W (clock_reads st) in
  let age := utcnow W (S (clock_reads st)) - nb in
  let verdict :=
    outcome (validate_certificate W service low high check_ocsp delay st) in
  verdict = policy_checks expires_in age low high
  /\ (Z.abs expires_in < exact_range -> Z.abs age < exact_range ->
      verdict = policy_verdict expires_in age low high)
  /\ (expires_in = days 20 -> low = days 15 -> age <= high ->
      verdict = Return tt)
  /\ (expires_in = days 5 -> low = days 15 ->
      verdict = Raise (CertificateValidationError ExpiringSoon
                         "Certificate expires in 5 days")).
Proof.
  intros Hf Ha Hb Hr expires_in age verdict.
  assert (Hv : verdict = policy_checks expires_in age low high).
  { unfold verdict, outcome.
    rewrite (validate_after_fetch W _ low high check_ocsp _ _ _ _ _ _ Hf Ha Hb).
    destruct Hr as [Hoff | (status & line & Hs & Hn & Hl)].
    - rewrite Hoff. reflexivity.
    - destruct (py_bool check_ocsp); [|reflexivity].
      rewrite Hs, Hn, Hl. reflexivity. }
  split; [exact Hv|]. split; [|split].
  - intros He Hg. rewrite Hv. unfold policy_checks, policy_verdict, days_message.
    rewrite (whole_days_exact _ He), (whole_days_exact _ Hg). reflexivity.
  - intros He Hl Hg. rewrite Hv. unfold policy_checks.
    rewrite He, Hl. change (days 20 <? days 15) with false.
    destruct (high <? age) eqn:E; [apply Z.ltb_lt in E; lia|reflexivity].
  - intros He Hl. rewrite Hv. unfold policy_checks. rewrite He, Hl.
    reflexivity.
Qed.

End EngineClaims.

Lemma validate_policy_witness :
  outcome (validate_certificate Scenario.five_days_left Scenario.example_com
             (days 15) (days 365) 0 Scenario.ten_seconds initial)
  = Raise (CertificateValidationError ExpiringSoon
             "Certificate expires in 5 days").
Proof.
  apply (validate_policy Scenario.five_days_left Scenario.example_com
           (days 15) (days 365) 0 Scenario.ten_seconds initial
           Scenario.cert_nov9
           (mk_state [ev_connect (Some "example.com") 443 Scenario.ten_seconds;
                      ev_handshake (Some "example.com")] O)
           (Scenario.today + days 5) (Scenario.today - days 10)).
  - reflexivity.
  - reflexivity.
  - reflexivity.
  - left. reflexivity.
  - reflexivity.
  - reflexivity.
Defined.

(** C1, as stated, fails: 198842 days less one microsecond remain and
    minRemaining is 200000 days; the message says 198842 days, the floor
    is 198841. *)
Lemma validate_policy_not_floor :
  let expires_in := Scenario.midnight 938766 - (Scenario.today + 1) in
  let age := Scenario.today + 2 - Scenario.midnight 739914 in
  let verdict :=
    outcome (validate_certificate Scenario.far_future Scenario.example_com
               (days 200000) (days 365) 0 Scenario.ten_seconds initial) in
  outcome (get_server_certificate Scenario.far_future Scenario.example_com
             Scenario.ten_seconds initial) = Return Scenario.cert_2571
  /\ expires_in = days 198842 - 1
  /\ (expires_in <? days 200000) = true
  /\ floor_days expires_in = 198841
  /\ verdict = Raise (CertificateValidationError ExpiringSoon
                        "Certificate expires in 198842 days")
  /\ verdict <> policy_verdict expires_in age (days 200000) (days 365).
Proof.
  cbv zeta. repeat split; try (vm_compute; reflexivity).
  vm_compute. discriminate.
Qed.

Section RevocationClaims.

Variable W : World.

Ltac new_calls :=
  simpl; repeat rewrite <- app_assoc;
  try rewrite skipn_app, skipn_all, Nat.sub_diag; simpl.

(** With the check off, no run calls the revocation checker. *)
Lemma checker_not_called service low high check_ocsp delay st :
  py_bool check_ocsp = false ->
  existsb is_ocsp_call
    (skipn (List.length (trace st))
       (calls (validate_certificate W service low high check_ocsp delay st)))
  = false.
Proof.
  intros Hoff.
  unfold calls, validate_certificate, try_except_else, get_server_certificate,
    bind, call, log, now, ret, raise.
  rewrite Hoff. simpl.
  destruct (create_connection W _ _ _) as [e1|sock]; simpl.
  { destruct (exc_cls e1); new_calls; reflexivity. }
  destruct (wrap_socket W sock _) as [e2|cert]; simpl.
  { destruct (exc_cls e2); new_calls; reflexivity. }
  destruct (strptime W (notAfter cert)) as [e3|na]; simpl.
  { new_calls; reflexivity. }
  destruct (strptime W (notBefore cert)) as [e4|nb]; simpl.
  { new_calls; reflexivity. }
  repeat (match goal with |- context [if ?b then _ else _] =>
                            destruct b end);
    unfold raise, ret; new_calls; reflexivity.
Qed.

(** C2, on the code.  With the check on, a fetch that returned and a
    checker that reports revoked, the engine raises at the Revoked site
    whatever the expiry and the age are; the message it gives is
    "OCSP Satus: REVOKED", not "OCSP Status: REVOKED".  With the check
    off the checker is not called. *)
Theorem revoked_raises_first service low high check_ocsp delay st cert st1
        na nb status :
  get_server_certificate W service delay st = (Return cert, st1) ->
  strptime W (notAfter cert) = inr na ->
  strptime W (notBefore cert) = inr nb ->
  get_ocsp_status W service = inr status ->
  nth_error status 2 = Some "OCSP Status: REVOKED" ->
  (py_bool check_ocsp = true ->
   outcome (validate_certificate W service low high check_ocsp delay st)
   = Raise (CertificateValidationError Revoked "OCSP Satus: REVOKED"))
  /\ "OCSP Satus: REVOKED" <> "OCSP Status: REVOKED"
  /\ (py_bool check_ocsp = false ->
      existsb is_ocsp_call
        (skipn (List.length (trace st))
           (calls (validate_certificate W service low high check_ocsp delay
                     st)))
      = false).
Proof.
  intros Hf Ha Hb Hs Hn. split; [|split].
  - intros Hon. unfold outcome.
    rewrite (validate_after_fetch W _ low high check_ocsp _ _ _ _ _ _ Hf Ha Hb).
    rewrite Hon, Hs, Hn. reflexivity.
  - discriminate.
  - apply checker_not_called.
Qed.

(** C10.  With the check on and a fetch that returned, an exception of the
    revocation checker leaves the engine as it is: it is not turned into a
    CertificateValidationError of any of the six sites. *)
Theorem checker_exception_propagates service low high check_ocsp delay st
        cert st1 na nb err :
  get_server_certificate W service delay st = (Return cert, st1) ->
  strptime W (notAfter cert) = inr na ->
  strptime W (notBefore cert) = inr nb ->
  py_bool check_ocsp = true ->
  get_ocsp_status W service = inl err ->
  outcome (validate_certificate W service low high check_ocsp delay st)
  = Raise (Foreign err)
  /\ forall site msg,
       outcome (validate_certificate W service low high check_ocsp delay st)
       <> Raise (CertificateValidationError site msg).
Proof.
  intros Hf Ha Hb Hon Hs.
  assert (Ho : outcome (validate_certificate W service low high check_ocsp
                          delay st) = Raise (Foreign err)).
  { unfold outcome.
    rewrite (validate_after_fetch W _ low high check_ocsp _ _ _ _ _ _ Hf Ha Hb).
    rewrite Hon, Hs. reflexivity. }
  split; [exact Ho|]. intros site msg. rewrite Ho. discriminate.
Qed.

(** C3.  When the fetch raises, the engine raises at once: at the
    ConnectTimeout site for a socket timeout, at the ConnectionReset site
    for a connection reset, at the NetworkError site with the text of the
    error for any other exception; nothing is called after the fetch, and
    the result is neither Ok nor one of the policy kinds. *)
Theorem fetch_failure_wrapped service low high check_ocsp delay st e st1 :
  get_server_certificate W service delay st = (Raise e, st1) ->
  exists err,
    e = Foreign err
    /\ (exc_cls err = socket_timeout ->
        validate_certificate W service low high check_ocsp delay st
        = (Raise (CertificateValidationError ConnectTimeout "connect timeout"),
           st1))
    /\ (exc_cls err = ConnectionResetError ->
        validate_certificate W service low high check_ocsp delay st
        = (Raise (CertificateValidationError ConnectionReset
                    "Connection reset"), st1))
    /\ (exc_cls err = OtherException ->
        validate_certificate W service low high check_ocsp delay st
        = (Raise (CertificateValidationError NetworkError (exc_str err)),
           st1))
    /\ forallb is_fetch_call (skipn (List.length (trace st)) (trace st1))
       = true
    /\ snd (validate_certificate W service low high check_ocsp delay st) = st1
    /\ outcome (validate_certificate W service low high check_ocsp delay st)
       <> Return tt
    /\ forall site msg,
         outcome (validate_certificate W service low high check_ocsp delay st)
         = Raise (CertificateValidationError site msg) ->
         policy_kind site = false.
Proof.
  intros Hf.
  destruct (fetch_raises_foreign W _ _ _ _ _ Hf) as (err & -> & Hcalls).
  exists err. pose proof (validate_fetch_failed W service low high check_ocsp
                            delay st err st1 Hf) as Hv.
  split; [reflexivity|].
  repeat split.
  - intros Hc. rewrite Hv, Hc. reflexivity.
  - intros Hc. rewrite Hv, Hc. reflexivity.
  - intros Hc. rewrite Hv, Hc. reflexivity.
  - exact Hcalls.
  - rewrite Hv. destruct (exc_cls err); reflexivity.
  - rewrite Hv. destruct (exc_cls err); discriminate.
  - intros site msg. rewrite Hv.
    destruct (exc_cls err); unfold outcome; simpl; intros H;
      inversion H; reflexivity.
Qed.

End RevocationClaims.

Lemma revoked_raises_first_witness :
  outcome (validate_certificate Scenario.revoked Scenario.example_com
             (days 15) (days 365) 1 Scenario.ten_seconds initial)
  = Raise (CertificateValidationError Revoked "OCSP Satus: REVOKED").
Proof.
  apply (revoked_raises_first Scenario.revoked Scenario.example_com
           (days 15) (days 365) 1 Scenario.ten_seconds initial
           Scenario.cert_2027
           (mk_state [ev_connect (Some "example.com") 443 Scenario.ten_seconds;
                      ev_handshake (Some "example.com")] O)
           (Scenario.today + days 200) (Scenario.today - days 10)
           Scenario.revoked_status);
    reflexivity.
Defined.

Lemma checker_exception_propagates_witness :
  outcome (validate_certificate Scenario.checker_fails Scenario.example_com
             (days 15) (days 365) 1 Scenario.ten_seconds initial)
  = Raise (Foreign (mk_pyexc OtherException
                      "HTTPSConnectionPool: Max retries exceeded")).
Proof.
  apply (checker_exception_propagates Scenario.checker_fails
           Scenario.example_com (days 15) (days 365) 1 Scenario.ten_seconds
           initial Scenario.cert_2027
           (mk_state [ev_connect (Some "example.com") 443 Scenario.ten_seconds;
                      ev_handshake (Some "example.com")] O)
           (Scenario.today + days 200) (Scenario.today - days 10));
    reflexivity.
Defined.

Lemma fetch_failure_wrapped_witness :
  exists err,
    Foreign (mk_pyexc socket_timeout "timed out") = Foreign err
    /\ outcome (validate_certificate Scenario.timed_out Scenario.example_com
                  (days 15) (days 365) 1 Scenario.ten_seconds initial)
       <> Return tt.
Proof.
  destruct (fetch_failure_wrapped Scenario.timed_out Scenario.example_com
              (days 15) (days 365) 1 Scenario.ten_seconds initial
              (Foreign (mk_pyexc socket_timeout "timed out"))
              (mk_state [ev_connect (Some "example.com") 443
                           Scenario.ten_seconds] O)
              eq_refl)
    as (err & He & _ & _ & _ & _ & _ & Hok & _).
  exists err. split; [exact He | exact Hok].
Defined.

(** ** The parser *)

Section ScanFacts.

Import ServiceSpec.

Lemma span_app p a b :
  PyStr.forallb p a = true ->
  (match b with EmptyString => true | String c _ => negb (p c) end) = true ->
  PyStr.span p (a ++ b) = (a, b).
Proof.
  intros Ha Hb. induction a as [|c a IH]; simpl in *.
  - destruct b as [|c r]; [reflexivity|]. simpl.
    destruct (p c); [discriminate|reflexivity].
  - apply andb_true_iff in Ha as [Hc Ha]. rewrite Hc, (IH Ha). reflexivity.
Qed.

Lemma span_spec p s :
  forall a b, PyStr.span p s = (a, b) ->
  s = a ++ b /\ PyStr.forallb p a = true
  /\ (match b with EmptyString => true | String c _ => negb (p c) end) = true
  /\ (String.length b <= String.length s)%nat.
Proof.
  induction s as [|c r IH]; simpl; intros a b H.
  - inversion H; subst. repeat split; reflexivity.
  - destruct (p c) eqn:Hc.
    + destruct (PyStr.span p r) as [a' b'] eqn:E. inversion H; subst.
      destruct (IH _ _ eq_refl) as (H1 & H2 & H3 & H4).
      simpl. rewrite Hc, H2. repeat split; try assumption.
      * f_equal. exact H1.
      * lia.
    + inversion H; subst. simpl. rewrite Hc. repeat split; try reflexivity.
Qed.

Lemma finditer_from_skip a b :
  finditer_from (String.length a) (a ++ b) = finditer_from O b.
Proof.
  induction a as [|c a IH]; simpl.
  - destruct b; reflexivity.
  - exact IH.
Qed.

Lemma is_empty_true s : PyStr.is_empty s = true -> s = EmptyString.
Proof. destruct s; [reflexivity|discriminate]. Qed.

(** The scan, one match at a time: at a sigil followed by a run, an IP or
    port part; at a sigil followed by no run, nothing, one character on;
    elsewhere a hostname part. *)
Lemma finditer_step c r :
  finditer (String c r) =
  if Ascii.eqb c "@" || Ascii.eqb c ":" then
    let (w, r') := PyStr.span not_sigil r in
    if PyStr.is_empty w then finditer r'
    else mk_match (if Ascii.eqb c "@" then g_ip else g_port) (String c w)
         :: finditer r'
  else
    let (w, r') := PyStr.span not_sigil r in
    mk_match g_hostname (String c w) :: finditer r'.
Proof.
  unfold finditer at 1. cbn [finditer_from]. unfold match_at, run.
  destruct (PyStr.span not_sigil r) as [w r'] eqn:E.
  destruct (span_spec _ _ _ _ E) as (Hr & Hw & Hb & _).
  assert (Hskip : finditer_from (String.length w) r = finditer r').
  { rewrite Hr. apply finditer_from_skip. }
  destruct (Ascii.eqb c "@") eqn:E1; simpl.
  - destruct (PyStr.is_empty w) eqn:Ew.
    + apply is_empty_true in Ew. subst w. simpl in Hr. subst r'. reflexivity.
    + simpl. rewrite Hskip. reflexivity.
  - destruct (Ascii.eqb c ":") eqn:E2; simpl.
    + destruct (PyStr.is_empty w) eqn:Ew.
      * apply is_empty_true in Ew. subst w. simpl in Hr. subst r'. reflexivity.
      * simpl. rewrite Hskip. reflexivity.
    + unfold not_sigil. rewrite E1, E2. simpl. fold not_sigil. rewrite E.
      simpl. rewrite Hskip. reflexivity.
Qed.

(** Induction on the text along the scan. *)
Lemma scan_ind (P : string -> Prop) :
  P EmptyString ->
  (forall c r w r',
      PyStr.span not_sigil r = (w, r') -> P r' -> P (String c r)) ->
  forall s, P s.
Proof.
  intros H0 Hstep s.
  assert (H : forall n s, (String.length s <= n)%nat -> P s).
  { induction n as [|n IH]; intros [|c r] Hl; simpl in Hl; try exact H0.
    - lia.
    - destruct (PyStr.span not_sigil r) as [w r'] eqn:E.
      apply (Hstep c r w r' E). apply IH.
      destruct (span_spec _ _ _ _ E) as (_ & _ & _ & Hlen). lia. }
  apply (H (String.length s)). lia.
Qed.

End ScanFacts.

Section LoopFacts.

Import ServiceSpec.

Lemma int_raises_ValueError s e :
  PyInt.int s = Raise e -> e = ValueError s.
Proof.
  unfold PyInt.int.
  destruct (match PyStr.lstrip PyInt.is_space s with
            | EmptyString => _ | String _ _ => _ end) as [negative s2].
  destruct (PyStr.span PyInt.is_body s2) as [body s3].
  repeat (match goal with |- context [if ?b then _ else _] =>
                            destruct b end);
    intros H; inversion H; reflexivity.
Qed.

Lemma Service_token_cases self m :
  match lastgroup m with
  | g_ip =>
      Service_token self m
      = Return (mk_service (description self) (Some (PyStr.tail (mgroup m)))
                           (port self) (hostname self))
  | g_port =>
      match PyInt.int (PyStr.tail (mgroup m)) with
      | Raise e => Service_token self m = Raise e
      | Return n =>
          Service_token self m
          = Return (mk_service (description self) (ip self) n (hostname self))
      end
  | g_hostname =>
      Service_token self m
      = Return (mk_service (description self) (ip self) (port self)
                           (Some (mgroup m)))
  end.
Proof.
  unfold Service_token. destruct (lastgroup m); simpl; try reflexivity.
  destruct (PyInt.int _); reflexivity.
Qed.

Lemma Service_loop_fields ms :
  forall self s,
    Service_loop self ms = Return s ->
    description s = description self
    /\ ip s = match last_of g_ip ms with
              | Some m => Some (PyStr.tail (mgroup m))
              | None => ip self
              end
    /\ hostname s = match last_of g_hostname ms with
                    | Some m => Some (mgroup m)
                    | None => hostname self
                    end
    /\ match last_of g_port ms with
       | Some m => PyInt.int (PyStr.tail (mgroup m)) = Return (port s)
       | None => port s = port self
       end.
Proof.
  induction ms as [|m rest IH]; simpl; intros self s H.
  - inversion H; subst. repeat split; reflexivity.
  - pose proof (Service_token_cases self m) as Hm.
    destruct (Service_token self m) as [e|self'] eqn:Et; [discriminate|].
    destruct (IH _ _ H) as (Hd & Hi & Hh & Hp).
    destruct (lastgroup m) eqn:Eg; simpl.
    + inversion Hm; subst self'; simpl in *.
      repeat split; try assumption.
      * destruct (last_of g_ip rest); assumption.
      * destruct (last_of g_hostname rest); assumption.
      * destruct (last_of g_port rest); assumption.
    + destruct (PyInt.int (PyStr.tail (mgroup m))) as [e|n] eqn:En;
        [discriminate|].
      inversion Hm; subst self'; simpl in *.
      repeat split; try assumption.
      * destruct (last_of g_ip rest); assumption.
      * destruct (last_of g_hostname rest); assumption.
      * destruct (last_of g_port rest); [assumption|].
        rewrite En, Hp. reflexivity.
    + inversion Hm; subst self'; simpl in *.
      repeat split; try assumption.
      * destruct (last_of g_ip rest); assumption.
      * destruct (last_of g_hostname rest); assumption.
      * destruct (last_of g_port rest); assumption.
Qed.

Lemma Service_loop_raises ms :
  forall self e,
    Service_loop self ms = Raise e ->
    exists m, In m ms /\ lastgroup m = g_port
              /\ PyInt.int (PyStr.tail (mgroup m)) = Raise e.
Proof.
  induction ms as [|m rest IH]; simpl; intros self e H; [discriminate|].
  pose proof (Service_token_cases self m) as Hm.
  destruct (Service_token self m) as [e'|self'] eqn:Et.
  - inversion H; subst e'. exists m. split; [left; reflexivity|].
    destruct (lastgroup m); try discriminate.
    destruct (PyInt.int (PyStr.tail (mgroup m))) as [e2|n];
      [|discriminate].
    inversion Hm; subst. split; reflexivity.
  - destruct (IH _ _ H) as (m' & Hin & Hg & Hint).
    exists m'. split; [right; exact Hin|]. split; assumption.
Qed.

Lemma Service_loop_returns ms :
  (forall m, In m ms -> lastgroup m = g_port ->
             exists n, PyInt.int (PyStr.tail (mgroup m)) = Return n) ->
  forall self, exists s, Service_loop self ms = Return s.
Proof.
  induction ms as [|m rest IH]; simpl; intros Hok self.
  - exists self. reflexivity.
  - pose proof (Service_token_cases self m) as Hm.
    assert (Hrest : forall m', In m' rest -> lastgroup m' = g_port ->
                               exists n, PyInt.int (PyStr.tail (mgroup m'))
                                         = Return n)
      by (intros m' Hin; apply Hok; right; exact Hin).
    destruct (lastgroup m) eqn:Eg.
    + rewrite Hm. apply (IH Hrest).
    + destruct (Hok m (or_introl eq_refl) Eg) as [n Hn].
      rewrite Hn in Hm. rewrite Hm. apply (IH Hrest).
    + rewrite Hm. apply (IH Hrest).
Qed.

Lemma last_of_none g ms :
  (forall m, In m ms -> lastgroup m <> g) -> last_of g ms = None.
Proof.
  induction ms as [|m rest IH]; simpl; intros H; [reflexivity|].
  rewrite IH by (intros m' Hin; apply H; right; exact Hin).
  destruct (group_eqb (lastgroup m) g) eqn:E; [|reflexivity].
  exfalso. apply (H m (or_introl eq_refl)).
  destruct (lastgroup m), g; try discriminate; reflexivity.
Qed.

(** After the end of a part no hostname part follows. *)
Lemma no_hostname_after_boundary s :
  boundary s = true ->
  forall m, In m (finditer s) -> lastgroup m <> g_hostname.
Proof.
  induction s as [| c r w r' E IH] using scan_ind; intros Hb m Hin.
  - destruct Hin.
  - destruct (span_spec _ _ _ _ E) as (_ & _ & Hb' & _).
    rewrite finditer_step, E in Hin.
    unfold boundary in Hb; simpl in Hb. unfold not_sigil in Hb.
    apply negb_true_iff, negb_false_iff in Hb. rewrite Hb in Hin.
    assert (Hr' : boundary r' = true) by (destruct r'; [reflexivity|exact Hb']).
    destruct (PyStr.is_empty w).
    + apply (IH Hr' m Hin).
    + destruct Hin as [<-|Hin]; [|apply (IH Hr' m Hin)].
      simpl. destruct (Ascii.eqb c "@"); discriminate.
Qed.

(** A token that begins with a hostname part: that part is the first
    match, and the only hostname part. *)
Lemma finditer_host_first c r :
  not_sigil c = true ->
  exists w r',
    PyStr.span not_sigil r = (w, r')
    /\ finditer (String c r) = mk_match g_hostname (String c w) :: finditer r'
    /\ last_of g_hostname (finditer (String c r))
       = Some (mk_match g_hostname (String c w)).
Proof.
  intros Hc. destruct (PyStr.span not_sigil r) as [w r'] eqn:E.
  exists w, r'. split; [reflexivity|].
  assert (Hs : finditer (String c r)
               = mk_match g_hostname (String c w) :: finditer r').
  { rewrite finditer_step, E. unfold not_sigil in Hc.
    apply negb_true_iff in Hc. rewrite Hc. reflexivity. }
  split; [exact Hs|]. rewrite Hs. simpl.
  destruct (span_spec _ _ _ _ E) as (_ & _ & Hb' & _).
  rewrite last_of_none; [reflexivity|].
  apply no_hostname_after_boundary. destruct r'; [reflexivity|exact Hb'].
Qed.

End LoopFacts.

Section LiteralFacts.

Import ServiceSpec.

Lemma digit_facts c :
  PyInt.is_digit c = true ->
  not_sigil c = true /\ PyInt.is_space c = false
  /\ PyInt.is_underscore c = false
  /\ Ascii.eqb c "-" = false /\ Ascii.eqb c "+" = false.
Proof.
  destruct c as [[] [] [] [] [] [] [] []]; vm_compute; intros H;
    try discriminate H; repeat split.
Qed.

Lemma digits_are_part p :
  PyStr.forallb PyInt.is_digit p = true ->
  PyStr.forallb not_sigil p = true.
Proof.
  induction p as [|c r IH]; simpl; [reflexivity|].
  intros H. apply andb_true_iff in H as [Hc Hr].
  destruct (digit_facts c Hc) as (-> & _). simpl. exact (IH Hr).
Qed.

Lemma digits_are_body p :
  PyStr.forallb PyInt.is_digit p = true ->
  PyStr.forallb PyInt.is_body p = true.
Proof.
  induction p as [|c r IH]; simpl; [reflexivity|].
  intros H. apply andb_true_iff in H as [Hc Hr].
  unfold PyInt.is_body at 1. rewrite Hc. simpl. exact (IH Hr).
Qed.

Lemma digits_well_grouped p :
  PyStr.forallb PyInt.is_digit p = true -> PyInt.well_grouped false p = true.
Proof.
  induction p as [|c r IH]; simpl; [reflexivity|].
  intros H. apply andb_true_iff in H as [Hc Hr].
  destruct (digit_facts c Hc) as (_ & _ & -> & _). exact (IH Hr).
Qed.

Lemma digits_counted p :
  PyStr.forallb PyInt.is_digit p = true ->
  PyInt.count_digits p = String.length p.
Proof.
  induction p as [|c r IH]; simpl; [reflexivity|].
  intros H. apply andb_true_iff in H as [Hc Hr].
  rewrite Hc, (IH Hr). reflexivity.
Qed.

Lemma digits_accumulate p :
  PyStr.forallb PyInt.is_digit p = true ->
  forall acc,
    PyInt.accumulate acc p
    = acc * 10 ^ Z.of_nat (String.length p) + decimal_value p.
Proof.
  induction p as [|c r IH]; simpl String.length; intros H acc.
  - simpl. lia.
  - simpl in H. apply andb_true_iff in H as [Hc Hr].
    cbn [PyInt.accumulate decimal_value]. rewrite Hc, (IH Hr).
    rewrite Nat2Z.inj_succ, Z.pow_succ_r by lia. ring.
Qed.

Lemma append_empty s : s ++ EmptyString = s.
Proof. induction s as [|c r IH]; simpl; [reflexivity|]. rewrite IH. reflexivity. Qed.

(** [int()] on an unsigned decimal literal gives its value. *)
Lemma int_decimal p : decimal p -> PyInt.int p = Return (decimal_value p).
Proof.
  intros (Hne & Hd & Hlen). destruct p as [|c r]; [contradiction|].
  pose proof Hd as Hd'. simpl in Hd'. apply andb_true_iff in Hd' as [Hc Hr].
  destruct (digit_facts c Hc) as (_ & Hsp & Hus & Hm & Hp).
  unfold PyInt.int. cbn [PyStr.lstrip]. rewrite Hsp, Hm, Hp.
  rewrite <- (append_empty (String c r)) at 1.
  rewrite (span_app PyInt.is_body _ EmptyString (digits_are_body _ Hd) eq_refl).
  cbn [PyInt.well_grouped]. rewrite Hus, (digits_well_grouped _ Hr).
  rewrite (digits_counted _ Hd).
  destruct (Nat.ltb_spec PyInt.max_str_digits (String.length (String c r)));
    [lia|].
  cbn [negb PyStr.lstrip PyStr.is_empty].
  rewrite (digits_accumulate _ Hd). f_equal.
Qed.

(** A hostname part before the end of a part is one match. *)
Lemma finditer_host w r :
  part w -> boundary r = true ->
  finditer (w ++ r) = mk_match g_hostname w :: finditer r.
Proof.
  intros (Hne & Hw) Hb. destruct w as [|c w]; [contradiction|].
  simpl in Hw. apply andb_true_iff in Hw as [Hc Hw].
  change (String c w ++ r) with (String c (w ++ r)).
  rewrite finditer_step.
  assert (Hspan : PyStr.span not_sigil (w ++ r) = (w, r)).
  { apply span_app; [exact Hw|]. destruct r; [reflexivity|exact Hb]. }
  rewrite Hspan. unfold not_sigil in Hc. apply negb_true_iff in Hc.
  rewrite Hc. reflexivity.
Qed.

(** A sigil and a run before the end of a part is one match. *)
Lemma finditer_sigil c w r :
  Ascii.eqb c "@" || Ascii.eqb c ":" = true ->
  part w -> boundary r = true ->
  finditer (String c (w ++ r))
  = mk_match (if Ascii.eqb c "@" then g_ip else g_port) (String c w)
    :: finditer r.
Proof.
  intros Hc (Hne & Hw) Hb. rewrite finditer_step, Hc.
  assert (Hspan : PyStr.span not_sigil (w ++ r) = (w, r)).
  { apply span_app; [exact Hw|]. destruct r; [reflexivity|exact Hb]. }
  rewrite Hspan. destruct w; [contradiction|reflexivity].
Qed.

End LiteralFacts.

Section ParserClaims.

Import ServiceSpec.

Lemma Service_loop_ports_numeric ms :
  forall self s,
    Service_loop self ms = Return s ->
    forall m, In m ms -> lastgroup m = g_port ->
              exists n, PyInt.int (PyStr.tail (mgroup m)) = Return n.
Proof.
  induction ms as [|m0 rest IH]; simpl; intros self s H m Hin Hg;
    [destruct Hin|].
  pose proof (Service_token_cases self m0) as Hm.
  destruct (Service_token self m0) as [e|self'] eqn:Et; [discriminate|].
  destruct Hin as [<-|Hin]; [|exact (IH _ _ H m Hin Hg)].
  rewrite Hg in Hm.
  destruct (PyInt.int (PyStr.tail (mgroup m0))) as [e|n];
    [discriminate|exists n; reflexivity].
Qed.

(** C8.  A token without '@' and ':' gives a descriptor whose hostname
    is the whole token, whose port is 443 and which has no IP override.
    (For the empty token the hostname field is None, the empty hostname.) *)
Theorem bare_hostname d :
  PyStr.forallb not_sigil d = true ->
  Service_init d
  = Return (mk_service d None 443
              (if PyStr.is_empty d then None else Some d))
  /\ forall s, Service_init d = Return s ->
                hostname_text s = d /\ port s = 443 /\ ip s = None.
Proof.
  intros Hd.
  assert (H : Service_init d
              = Return (mk_service d None 443
                          (if PyStr.is_empty d then None else Some d))).
  { destruct d as [|c r]; [reflexivity|].
    unfold Service_init.
    rewrite <- (append_empty (String c r)) at 2.
    rewrite finditer_host; [reflexivity| |reflexivity].
    split; [discriminate|exact Hd]. }
  split; [exact H|]. intros s Hs. rewrite H in Hs. inversion Hs; subst.
  destruct d; repeat split.
Qed.

Lemma part_app a b : part a -> part b -> part (a ++ b).
Proof.
  intros (Ha & Hfa) (_ & Hfb). split.
  - destruct a; [contradiction|discriminate].
  - clear Ha. induction a as [|c a IH]; simpl in *; [exact Hfb|].
    apply andb_true_iff in Hfa as [Hc Hfa]. rewrite Hc. exact (IH Hfa).
Qed.

(** C6 (amended).  For a hostname h and an IP i, both non-empty and
    without '@' and ':', and an unsigned decimal p, the two tokens that
    begin with the hostname, h@i:p and h:p@i, both give hostname h,
    IP override i and the value of p as port.  With the hostname after
    the IP, in :p@ih and @ih:p, the IP override is i followed by h, the
    port is the same and there is no hostname. *)
Theorem host_first_orders h i p :
  part h -> part i -> decimal p ->
  Service_init (h ++ "@" ++ i ++ ":" ++ p)
  = Return (mk_service (h ++ "@" ++ i ++ ":" ++ p)
              (Some i) (decimal_value p) (Some h))
  /\ Service_init (h ++ ":" ++ p ++ "@" ++ i)
     = Return (mk_service (h ++ ":" ++ p ++ "@" ++ i)
                 (Some i) (decimal_value p) (Some h))
  /\ Service_init (":" ++ p ++ "@" ++ i ++ h)
     = Return (mk_service (":" ++ p ++ "@" ++ i ++ h)
                 (Some (i ++ h)) (decimal_value p) None)
  /\ Service_init ("@" ++ i ++ h ++ ":" ++ p)
     = Return (mk_service ("@" ++ i ++ h ++ ":" ++ p)
                 (Some (i ++ h)) (decimal_value p) None).
Proof.
  intros Hh Hi Hp.
  assert (Hpp : part p).
  { destruct Hp as (Hne & Hd & _). split; [exact Hne|].
    apply digits_are_part; exact Hd. }
  pose proof (part_app i h Hi Hh) as Hih.
  pose proof (int_decimal p Hp) as Hint.
  repeat split; unfold Service_init.
  - rewrite finditer_host by (assumption || reflexivity).
    change ("@" ++ i ++ ":" ++ p) with (String "@" (i ++ String ":" p)).
    rewrite finditer_sigil by (assumption || reflexivity).
    rewrite <- (append_empty p) at 2.
    rewrite finditer_sigil by (assumption || reflexivity).
    simpl. unfold Service_token. simpl. rewrite Hint. reflexivity.
  - rewrite finditer_host by (assumption || reflexivity).
    change (":" ++ p ++ "@" ++ i) with (String ":" (p ++ String "@" i)).
    rewrite finditer_sigil by (assumption || reflexivity).
    rewrite <- (append_empty i) at 2.
    rewrite finditer_sigil by (assumption || reflexivity).
    simpl. unfold Service_token. simpl. rewrite Hint. reflexivity.
  - change (":" ++ p ++ "@" ++ i ++ h)
      with (String ":" (p ++ String "@" (i ++ h))).
    rewrite finditer_sigil by (assumption || reflexivity).
    rewrite <- (append_empty (i ++ h)) at 2.
    rewrite finditer_sigil by (assumption || reflexivity).
    simpl. unfold Service_token. simpl. rewrite Hint. reflexivity.
  - change ("@" ++ i ++ h ++ ":" ++ p)
      with (String "@" (i ++ h ++ String ":" p)).
    replace (i ++ h ++ String ":" p) with ((i ++ h) ++ String ":" p)
      by (clear; induction i as [|c i IH]; simpl; [reflexivity|];
          rewrite IH; reflexivity).
    rewrite finditer_sigil by (assumption || reflexivity).
    rewrite <- (append_empty p) at 2.
    rewrite finditer_sigil by (assumption || reflexivity).
    simpl. unfold Service_token. simpl. rewrite Hint. reflexivity.
Qed.

(** Every port part is converted as it is scanned: the first that does
    not convert ends the loop with its exception. *)
Lemma Service_loop_first_raise before :
  forall self m after e,
    (forall m', In m' before -> lastgroup m' = g_port ->
                exists n, PyInt.int (PyStr.tail (mgroup m')) = Return n) ->
    lastgroup m = g_port ->
    PyInt.int (PyStr.tail (mgroup m)) = Raise e ->
    Service_loop self (before ++ m :: after) = Raise e.
Proof.
  induction before as [|m0 rest IH]; intros self m after e Hok Hg He; simpl.
  - pose proof (Service_token_cases self m) as Hm.
    rewrite Hg, He in Hm. rewrite Hm. reflexivity.
  - assert (Hrest : forall m', In m' rest -> lastgroup m' = g_port ->
                      exists n, PyInt.int (PyStr.tail (mgroup m')) = Return n)
      by (intros m' Hin; apply Hok; right; exact Hin).
    pose proof (Service_token_cases self m0) as Hm.
    destruct (lastgroup m0) eqn:Eg.
    + rewrite Hm. exact (IH _ _ _ _ Hrest Hg He).
    + destruct (Hok m0 (or_introl eq_refl) Eg) as [n Hn].
      rewrite Hn in Hm. rewrite Hm. exact (IH _ _ _ _ Hrest Hg He).
    + rewrite Hm. exact (IH _ _ _ _ Hrest Hg He).
Qed.

(** C7 (amended).  Whenever the parser returns, each field holds the last
    part of its type in scan order, earlier ones being overwritten; the
    parser returns whenever every port part converts; the only exception
    it raises is the ValueError of [int()] on a port part, never an error
    about a repeated part; and a port part is not overwritten before it
    is converted: the first port part in scan order that does not convert
    raises its ValueError, whatever parts follow it. *)
Theorem last_part_wins d :
  (forall s, Service_init d = Return s ->
     ip s = option_map (fun m => PyStr.tail (mgroup m))
                       (last_of g_ip (finditer d))
     /\ hostname s = option_map mgroup (last_of g_hostname (finditer d))
     /\ match last_of g_port (finditer d) with
        | Some m => PyInt.int (PyStr.tail (mgroup m)) = Return (port s)
        | None => port s = 443
        end)
  /\ (ports_numeric d -> exists s, Service_init d = Return s)
  /\ (forall e, Service_init d = Raise e ->
        exists m, In m (finditer d) /\ lastgroup m = g_port
                  /\ PyInt.int (PyStr.tail (mgroup m)) = Raise e
                  /\ e = ValueError (PyStr.tail (mgroup m)))
  /\ (forall before m after e,
        finditer d = (before ++ m :: after)%list ->
        (forall m', In m' before -> lastgroup m' = g_port ->
                    exists n, PyInt.int (PyStr.tail (mgroup m')) = Return n) ->
        lastgroup m = g_port ->
        PyInt.int (PyStr.tail (mgroup m)) = Raise e ->
        Service_init d = Raise e).
Proof.
  unfold Service_init. split; [|split; [|split]].
  - intros s H. destruct (Service_loop_fields _ _ _ H) as (_ & Hi & Hh & Hp).
    simpl in *. repeat split.
    + rewrite Hi. destruct (last_of g_ip (finditer d)); reflexivity.
    + rewrite Hh. destruct (last_of g_hostname (finditer d)); reflexivity.
    + exact Hp.
  - intros Hok. apply Service_loop_returns. exact Hok.
  - intros e H. destruct (Service_loop_raises _ _ _ H) as (m & Hin & Hg & Hint).
    exists m. repeat split; try assumption.
    apply int_raises_ValueError. exact Hint.
  - intros before m after e Hscan Hok Hg He. rewrite Hscan.
    exact (Service_loop_first_raise before _ m after e Hok Hg He).
Qed.

(** C4 (amended).  The parser returns exactly when every port part of the
    token is a literal [int()] converts; otherwise it raises the
    ValueError of [int()].  When it returns and the token has no hostname
    part, the hostname is absent (None, the empty hostname): that is no
    error. *)
Theorem parser_returns_iff d :
  (ports_numeric d <-> exists s, Service_init d = Return s)
  /\ (forall e, Service_init d = Raise e ->
        exists m, In m (finditer d) /\ lastgroup m = g_port
                  /\ e = ValueError (PyStr.tail (mgroup m)))
  /\ (forall s, Service_init d = Return s ->
        (forall m, In m (finditer d) -> lastgroup m <> g_hostname) ->
        hostname s = None /\ hostname_text s = EmptyString).
Proof.
  unfold Service_init. split; [split|split].
  - intros Hok. apply Service_loop_returns. exact Hok.
  - intros [s H]. exact (Service_loop_ports_numeric _ _ _ H).
  - intros e H. destruct (Service_loop_raises _ _ _ H) as (m & Hin & Hg & Hint).
    exists m. repeat split; try assumption.
    apply int_raises_ValueError. exact Hint.
  - intros s H Hno.
    destruct (Service_loop_fields _ _ _ H) as (_ & _ & Hh & _).
    rewrite (last_of_none _ _ Hno) in Hh. unfold hostname_text.
    rewrite Hh. split; reflexivity.
Qed.

(** C5 (amended).  On a descriptor the parser returns: the hostname, when
    present, is not empty and has no '@' or ':', and it is present exactly
    when the token begins with a character other than '@' and ':'; the
    port is 443 when the token has no port part and otherwise the value of
    its last port part, so it is positive exactly when that value is. *)
Theorem descriptor_fields d s :
  Service_init d = Return s ->
  (forall h, hostname s = Some h -> part h)
  /\ ((exists h, hostname s = Some h) <-> starts_with_host d = true)
  /\ match last_of g_port (finditer d) with
     | None => port s = 443
     | Some m => PyInt.int (PyStr.tail (mgroup m)) = Return (port s)
     end
  /\ (0 < port s <->
      match last_of g_port (finditer d) with
      | None => True
      | Some m =>
          exists n, PyInt.int (PyStr.tail (mgroup m)) = Return n /\ 0 < n
      end).
Proof.
  unfold Service_init. intros H.
  destruct (Service_loop_fields _ _ _ H) as (_ & _ & Hh & Hp). simpl in Hh, Hp.
  assert (Hhost : match d with
                  | EmptyString => hostname s = None
                  | String c r =>
                      if not_sigil c
                      then exists w, hostname s = Some (String c w)
                                     /\ PyStr.forallb not_sigil w = true
                      else hostname s = None
                  end).
  { destruct d as [|c r]; [exact Hh|].
    destruct (not_sigil c) eqn:Hc.
    - destruct (finditer_host_first c r Hc) as (w & r' & E & _ & Hl).
      rewrite Hl in Hh. exists w. split; [exact Hh|].
      destruct (span_spec _ _ _ _ E) as (_ & Hw & _). exact Hw.
    - rewrite last_of_none in Hh; [exact Hh|].
      apply no_hostname_after_boundary. unfold boundary. simpl.
      rewrite Hc. reflexivity. }
  split; [|split; [|split]].
  - intros h Hs. destruct d as [|c r]; [congruence|]. simpl in Hhost.
    destruct (not_sigil c) eqn:Hc; [|congruence].
    destruct Hhost as (w & Hw & Hall). rewrite Hw in Hs. inversion Hs; subst.
    split; [discriminate|]. simpl. rewrite Hc, Hall. reflexivity.
  - destruct d as [|c r]; simpl.
    + split; [intros [h Hs]; congruence|discriminate].
    + destruct (not_sigil c).
      * split; [reflexivity|]. intros _. destruct Hhost as (w & Hw & _).
        exists (String c w). exact Hw.
      * split; [intros [h Hs]; congruence|discriminate].
  - exact Hp.
  - destruct (last_of g_port (finditer d)) as [m|].
    + split.
      * intros Hpos. exists (port s). split; assumption.
      * intros (n & Hn & Hpos). rewrite Hp in Hn. inversion Hn; subst.
        exact Hpos.
    + rewrite Hp. split; [trivial|lia].
Qed.

End ParserClaims.

(** ** The host file *)

Section HostFile.

Lemma split_one_line l :
  one_line l -> PyStr.split newline l = [l].
Proof.
  unfold one_line. induction l as [|c r IH]; simpl; [reflexivity|].
  intros H. apply andb_true_iff in H as [Hc Hr].
  apply negb_true_iff in Hc. rewrite Hc, (IH Hr). reflexivity.
Qed.

Lemma split_line_then l r :
  one_line l ->
  PyStr.split newline (l ++ String newline r) = l :: PyStr.split newline r.
Proof.
  unfold one_line. induction l as [|c l' IH]; simpl; intros H.
  - reflexivity.
  - apply andb_true_iff in H as [Hc Hr].
    apply negb_true_iff in Hc. rewrite Hc, (IH Hr). reflexivity.
Qed.

Lemma split_join lines :
  lines <> [] -> Forall one_line lines ->
  PyStr.split newline (join_lines lines) = lines.
Proof.
  induction lines as [|l rest IH]; intros Hne Hall; [contradiction|].
  inversion Hall as [|? ? Hl Hrest]; subst.
  destruct rest as [|l2 rest].
  - simpl. apply split_one_line. exact Hl.
  - change (join_lines (l :: l2 :: rest))
      with (l ++ String newline (join_lines (l2 :: rest))).
    rewrite (split_line_then _ _ Hl), IH; [reflexivity|discriminate|exact Hrest].
Qed.

Lemma hosts_of_lines lines :
  map PyStr.strip
      (filter (fun host => negb (PyStr.is_empty host)
                           && negb (PyStr.startswith "#" host)) lines)
  = tokens_of_lines lines.
Proof.
  induction lines as [|l rest IH]; simpl; [reflexivity|].
  destruct l as [|c r]; simpl; [exact IH|].
  destruct (Ascii.eqb c "#"); simpl; [exact IH|].
  rewrite IH. reflexivity.
Qed.

Lemma lstrip_all_space l :
  PyStr.forallb PyStr.is_space l = true ->
  PyStr.lstrip PyStr.is_space l = EmptyString.
Proof.
  induction l as [|c r IH]; simpl; [reflexivity|].
  intros H. apply andb_true_iff in H as [Hc Hr]. rewrite Hc. exact (IH Hr).
Qed.

Lemma strip_all_space l :
  PyStr.forallb PyStr.is_space l = true -> PyStr.strip l = EmptyString.
Proof.
  intros H. unfold PyStr.strip. rewrite (lstrip_all_space _ H). reflexivity.
Qed.

(** C9 (amended).  The tokens of the file come after the positional hosts,
    in file order, at most one per line: a line of no characters and a
    line whose first character is '#' give none, every other line gives
    itself stripped.  So a line of blanks only gives the empty token, and
    it is kept. *)
Theorem file_hosts_appended hosts lines :
  lines <> [] -> Forall one_line lines ->
  main_hosts hosts (Some (join_lines lines))
  = (hosts ++ tokens_of_lines lines)%list
  /\ (forall l, In l lines -> l <> EmptyString ->
                PyStr.forallb PyStr.is_space l = true ->
                In EmptyString (main_hosts hosts (Some (join_lines lines)))).
Proof.
  intros Hne Hall.
  assert (Hm : main_hosts hosts (Some (join_lines lines))
               = (hosts ++ tokens_of_lines lines)%list).
  { unfold main_hosts, hosts_of_file. fold newline.
    rewrite (split_join _ Hne Hall), hosts_of_lines. reflexivity. }
  split; [exact Hm|].
  intros l Hin Hl Hsp. rewrite Hm. apply in_or_app. right.
  clear Hm Hne Hall. induction lines as [|l0 rest IH]; [destruct Hin|].
  destruct Hin as [->|Hin].
  - destruct l as [|c r]; [contradiction|]. simpl.
    assert (Hc : Ascii.eqb c "#" = false).
    { simpl in Hsp. apply andb_true_iff in Hsp as [Hc _].
      destruct (Ascii.eqb_spec c "#") as [->|]; [discriminate Hc|reflexivity]. }
    rewrite Hc. left. apply strip_all_space. exact Hsp.
  - simpl. destruct l0 as [|c0 r0]; [exact (IH Hin)|].
    destruct (Ascii.eqb c0 "#"); [exact (IH Hin)|]. right. exact (IH Hin).
Qed.

End HostFile.

(** ** The claims at concrete inputs *)

Lemma bare_hostname_witness :
  Service_init "example.com"
  = Return (mk_service "example.com" None 443 (Some "example.com")).
Proof.
  exact (proj1 (bare_hostname "example.com" eq_refl)).
Defined.

Lemma host_first_orders_witness :
  Service_init "example.com@1.2.3.4:8443"
  = Return (mk_service "example.com@1.2.3.4:8443" (Some "1.2.3.4") 8443
              (Some "example.com"))
  /\ Service_init "example.com:8443@1.2.3.4"
     = Return (mk_service "example.com:8443@1.2.3.4" (Some "1.2.3.4") 8443
                 (Some "example.com"))
  /\ Service_init ":8443@1.2.3.4example.com"
     = Return (mk_service ":8443@1.2.3.4example.com"
                 (Some "1.2.3.4example.com") 8443 None)
  /\ Service_init "@1.2.3.4example.com:8443"
     = Return (mk_service "@1.2.3.4example.com:8443"
                 (Some "1.2.3.4example.com") 8443 None).
Proof.
  apply (host_first_orders "example.com" "1.2.3.4" "8443").
  - split; [discriminate|reflexivity].
  - split; [discriminate|reflexivity].
  - split; [discriminate|]. split; [reflexivity|].
    apply Nat.leb_le. reflexivity.
Defined.

Lemma last_part_wins_witness :
  (exists s, Service_init "h:1:2@a@b" = Return s
             /\ ip s = Some "b" /\ hostname s = Some "h"
             /\ PyInt.int "2" = Return (port s))
  /\ Service_init "h:1:x:2" = Raise (ValueError "x").
Proof.
  split; cycle 1.
  { refine (proj2 (proj2 (proj2 (last_part_wins "h:1:x:2")))
              [mk_match g_hostname "h"; mk_match g_port ":1"]
              (mk_match g_port ":x") [mk_match g_port ":2"]
              (ValueError "x") eq_refl _ eq_refl eq_refl).
    intros m' [<-|[<-|[]]] Hg; [discriminate Hg|].
    exists 1. reflexivity. }
  exists (mk_service "h:1:2@a@b" (Some "b") 2 (Some "h")).
  split; [reflexivity|].
  pose proof (proj1 (last_part_wins "h:1:2@a@b")
                (mk_service "h:1:2@a@b" (Some "b") 2 (Some "h"))
                (eq_refl (Return (mk_service "h:1:2@a@b" (Some "b") 2
                                             (Some "h")))
                 <: Service_init "h:1:2@a@b"
                    = Return (mk_service "h:1:2@a@b" (Some "b") 2
                                         (Some "h")))) as H.
  vm_compute in H. vm_compute. exact H.
Defined.

Lemma parser_returns_iff_witness :
  exists s, Service_init "example.com:8443" = Return s.
Proof.
  apply (proj1 (proj1 (parser_returns_iff "example.com:8443"))).
  intros m [<-|[<-|[]]] Hg; [discriminate Hg|].
  exists 8443. reflexivity.
Defined.

Lemma descriptor_fields_witness :
  (exists h, hostname (mk_service "example.com:8443" None 8443
                         (Some "example.com")) = Some h)
  <-> starts_with_host "example.com:8443" = true.
Proof.
  exact (proj1 (proj2 (descriptor_fields "example.com:8443"
                         (mk_service "example.com:8443" None 8443
                                     (Some "example.com"))
                         eq_refl))).
Defined.

Lemma file_hosts_appended_witness :
  main_hosts ["a.example"]
    (Some (join_lines ["b.example"; ""; "# staging"; "  c.example:8443 "; ""]))
  = ["a.example"; "b.example"; "c.example:8443"].
Proof.
  apply (file_hosts_appended ["a.example"]
           ["b.example"; ""; "# staging"; "  c.example:8443 "; ""]).
  - discriminate.
  - repeat constructor.
Defined.

(** C4, as stated, fails: a port part that is no number makes the parser
    raise. *)
Lemma parser_raises_on_port_text :
  Service_init "host:abc" = Raise (ValueError "abc").
Proof. reflexivity. Qed.

(** C7, as stated, fails: of the two port parts of "h:x:1" the last is a
    number and the first is not; the parser does not keep the last, it
    raises on the first. *)
Lemma earlier_port_raises :
  ServiceSpec.finditer "h:x:1"
  = [mk_match g_hostname "h"; mk_match g_port ":x"; mk_match g_port ":1"]
  /\ PyInt.int "1" = Return 1
  /\ Service_init "h:x:1" = Raise (ValueError "x").
Proof. repeat split. Qed.

(** C5, as stated, fails: a token without hostname part, and a negative
    port. *)
Lemma invariant_fails :
  (exists s, Service_init "@1.2.3.4" = Return s /\ hostname s = None
             /\ ~ descriptor_invariant s)
  /\ (exists s, Service_init ":-1" = Return s /\ port s = -1
                /\ ~ descriptor_invariant s).
Proof.
  split; eexists; (split; [reflexivity|]); (split; [reflexivity|]);
    unfold descriptor_invariant; simpl.
  - intros [(h & Hh & _) _]. discriminate.
  - intros [[h [Hh _]] _]. discriminate.
Qed.

(** C6, as stated, fails: with the hostname after the IP, the IP part
    takes it in and no hostname is left. *)
Lemma order_matters :
  part "h" /\ part "i" /\ decimal "1"
  /\ Service_init "h@i:1"
     = Return (mk_service "h@i:1" (Some "i") 1 (Some "h"))
  /\ Service_init ":1@ih"
     = Return (mk_service ":1@ih" (Some "ih") 1 None)
  /\ Service_init "@ih:1"
     = Return (mk_service "@ih:1" (Some "ih") 1 None).
Proof.
  repeat split; try discriminate; try reflexivity.
  apply Nat.leb_le. reflexivity.
Qed.

(** C9, as stated, fails: a line of blanks and a line whose '#' comes
    after a blank are not skipped. *)
Lemma blank_lines_kept :
  let lines := ["  "; " #c"; "b"] in
  main_hosts ["a"] (Some (join_lines lines)) = ["a"; ""; "#c"; "b"]
  /\ (["a"] ++ tokens_skipping_blank lines)%list = ["a"; "b"]
  /\ main_hosts ["a"] (Some (join_lines lines))
     <> (["a"] ++ tokens_skipping_blank lines)%list.
Proof.
  cbv zeta. split; [reflexivity|]. split; [reflexivity|].
  vm_compute. discriminate.
Qed.

(** * Further properties of the code *)

(** ** One validation *)

Section ValidationFacts.

Variable W : World.



(** [get_server_certificate]: the connection goes to the IP override when
    there is one and to the hostname otherwise, on the port of the
    service; the handshake is made only once the connection is there, and
    always for the hostname; an exception of either call is the one that
    comes out. *)
Theorem fetch_calls service timeout st :
  let address := py_or (ip service) (hostname service) in
  let connect := ev_connect address (port service) timeout in
  let handshake := ev_handshake (hostname service) in
  match create_connection W address (port service) timeout with
  | inl err =>
      get_server_certificate W service timeout st
      = (Raise (Foreign err),
         mk_state (trace st ++ [connect]) (clock_reads st))
  | inr sock =>
      get_server_certificate W service timeout st
      = (match wrap_socket W sock (hostname service) with
         | inl err => Raise (Foreign err)
         | inr cert => Return cert
         end,
         mk_state (trace st ++ [connect; handshake]) (clock_reads st))
  end.
Proof.
  cbv zeta. unfold get_server_certificate.
  destruct (create_connection W _ _ _) as [err|sock];
    cbv [bind call log ret raise trace clock_reads]; [reflexivity|].
  destruct (wrap_socket W sock _); rewrite <- app_assoc; reflexivity.
Qed.


End ValidationFacts.

Section ValidationEdges.

Variable W : World.

Lemma validate_unrevoked service low high check_ocsp delay st cert st1 na nb :
  get_server_certificate W service delay st = (Return cert, st1) ->
  strptime W (notAfter cert) = inr na ->
  strptime W (notBefore cert) = inr nb ->
  not_revoked W service check_ocsp ->
  outcome (validate_certificate W service low high check_ocsp delay st)
  = policy_checks (na - utcnow W (clock_reads st))
                  (utcnow W (S (clock_reads st)) - nb) low high.
Proof.
  intros Hf Ha Hb Hr. unfold outcome.
  rewrite (validate_after_fetch W _ low high check_ocsp _ _ _ _ _ _ Hf Ha Hb).
  destruct Hr as [Hoff | (status & line & Hs & Hn & Hl)].
  - rewrite Hoff. reflexivity.
  - destruct (py_bool check_ocsp); [|reflexivity].
    rewrite Hs, Hn, Hl. reflexivity.
Qed.

(** X2.  A date of the certificate that [strptime] cannot read: its exception
    comes out of [validate_certificate] as it is, before the clock is read
    and before the revocation checker is asked. *)
Theorem unreadable_date_propagates service low high check_ocsp delay st cert
        st1 err :
  get_server_certificate W service delay st = (Return cert, st1) ->
  (strptime W (notAfter cert) = inl err ->
   validate_certificate W service low high check_ocsp delay st
   = (Raise (Foreign err),
      mk_state (trace st1 ++ [ev_strptime (notAfter cert)])
               (clock_reads st)))
  /\ (forall na,
        strptime W (notAfter cert) = inr na ->
        strptime W (notBefore cert) = inl err ->
        validate_certificate W service low high check_ocsp delay st
        = (Raise (Foreign err),
           mk_state (trace st1 ++ [ev_strptime (notAfter cert);
                                   ev_strptime (notBefore cert)])
                    (clock_reads st))).
Proof.
  intros Hf. pose proof (fetch_keeps_clock _ _ _ _ _ _ Hf) as Hc.
  split; [intros Ha | intros na Ha Hb];
    unfold validate_certificate, try_except_else; rewrite Hf;
    unfold bind, call, log, ret, raise; simpl; rewrite Ha; simpl.
  - rewrite Hc. reflexivity.
  - rewrite Hb; simpl. rewrite Hc, <- app_assoc. reflexivity.
Qed.

(** X3.  With the check on, a status list of fewer than three lines makes
    [validate_certificate] raise IndexError: that is no
    CertificateValidationError. *)
Theorem short_status_raises_IndexError service low high check_ocsp delay st
        cert st1 na nb status :
  get_server_certificate W service delay st = (Return cert, st1) ->
  strptime W (notAfter cert) = inr na ->
  strptime W (notBefore cert) = inr nb ->
  py_bool check_ocsp = true ->
  get_ocsp_status W service = inr status ->
  (List.length status < 3)%nat ->
  outcome (validate_certificate W service low high check_ocsp delay st)
  = Raise IndexError.
Proof.
  intros Hf Ha Hb Hon Hs Hlen. unfold outcome.
  rewrite (validate_after_fetch W _ low high check_ocsp _ _ _ _ _ _ Hf Ha Hb).
  rewrite Hon, Hs.
  assert (Hn : nth_error status 2 = None) by (apply nth_error_None; lia).
  rewrite Hn. reflexivity.
Qed.

(** X4.  After a fetch that returned, without a revocation: the validation
    passes exactly when at least minRemaining is left and the age is at
    most maxAge; both bounds themselves pass. *)
Theorem passes_iff_within_bounds service low high check_ocsp delay st cert
        st1 na nb :
  get_server_certificate W service delay st = (Return cert, st1) ->
  strptime W (notAfter cert) = inr na ->
  strptime W (notBefore cert) = inr nb ->
  not_revoked W service check_ocsp ->
  outcome (validate_certificate W service low high check_ocsp delay st)
  = Return tt
  <-> low <= na - utcnow W (clock_reads st)
      /\ utcnow W (S (clock_reads st)) - nb <= high.
Proof.
  intros Hf Ha Hb Hr.
  rewrite (validate_unrevoked _ low high _ _ _ _ _ _ _ Hf Ha Hb Hr).
  unfold policy_checks.
  destruct (Z.ltb_spec (na - utcnow W (clock_reads st)) low);
    [split; [discriminate|lia]|].
  destruct (Z.ltb_spec high (utcnow W (S (clock_reads st)) - nb));
    [split; [discriminate|lia]|].
  split; [lia|reflexivity].
Qed.

End ValidationEdges.

Section DayCountBounds.

Lemma scaled_floor_within x m T :
  1 <= T ->
  2 * x * T - 1000000 <= 2 * (m * 1000000) <= 2 * x * T + 1000000 ->
  x / 86400000000 <= m / (T * 86400) <= x / 86400000000 + 1.
Proof.
  intros HT [Hlo Hhi].
  pose proof (Z.div_mod x 86400000000 ltac:(lia)) as Hdm.
  pose proof (Z.mod_pos_bound x 86400000000 ltac:(lia)) as Hr.
  set (k := x / 86400000000) in *. set (r := x mod 86400000000) in *.
  split.
  - apply Z.div_le_lower_bound; nia.
  - assert (m / (T * 86400) < k + 2); [|lia].
    apply Z.div_lt_upper_bound; nia.
Qed.

(** For every duration a [timedelta] can hold the float nearest to its
    seconds has a denominator of one or a greater power of two. *)
Lemma nearest_of_timedelta p :
  0 < p < 2 ^ 53 * 1000000 ->
  exists s, 0 <= s /\
    PyFloat.nearest p 1000000
    = (PyFloat.round_half_even (p * 2 ^ s) 1000000, 2 ^ s).
Proof.
  intros [Hp Hlt]. unfold PyFloat.nearest.
  change (Z.log2 1000000) with 19.
  change (2 ^ 53) with 9007199254740992 in Hlt.
  assert (Hl : Z.log2 p < 73).
  { apply Z.log2_lt_pow2; [assumption|].
    change (2 ^ 73) with 9444732965739290427392. lia. }
  set (l := Z.log2 p - 19) in *.
  set (e0 := if PyFloat.ge_pow2 p 1000000 l then l else l - 1).
  assert (He0 : e0 <= 52).
  { unfold e0. destruct (PyFloat.ge_pow2 p 1000000 l) eqn:E; [|lia].
    destruct (Z.eq_dec l 53) as [El|]; [|lia].
    rewrite El in E. unfold PyFloat.ge_pow2 in E. simpl in E.
    apply Z.leb_le in E. lia. }
  set (e := Z.max (e0 - 52) (- 1074)).
  assert (He : e <= 0) by lia.
  destruct (0 <=? e) eqn:E.
  - apply Z.leb_le in E. assert (e = 0) as -> by lia.
    exists 0. split; [lia|]. simpl (2 ^ 0).
    rewrite !Z.mul_1_r. reflexivity.
  - exists (- e). split; [lia|reflexivity].
Qed.

(** X6.  The day count of the messages, for every duration a [timedelta] can
    hold: never below the floor of the duration in whole days, and at
    most one above it. *)
Theorem whole_days_within_one td :
  Z.abs td < 2 ^ 53 * 1000000 ->
  floor_days td <= whole_days td <= floor_days td + 1.
Proof.
  intros Hb. unfold whole_days, total_seconds, floor_days, PyFloat.true_divide.
  destruct (td =? 0) eqn:E0.
  - apply Z.eqb_eq in E0; subst. vm_compute. split; discriminate.
  - apply Z.eqb_neq in E0.
    destruct (nearest_of_timedelta (Z.abs td) ltac:(lia)) as (s & Hs & ->).
    assert (HT : 1 <= 2 ^ s).
    { change 1 with (2 ^ 0). apply Z.pow_le_mono_r; lia. }
    pose proof (round_half_even_near (Z.abs td * 2 ^ s) 1000000 ltac:(lia))
      as Hn.
    set (m := PyFloat.round_half_even (Z.abs td * 2 ^ s) 1000000) in *.
    unfold PyFloat.floor_div.
    destruct (td <? 0) eqn:En.
    + apply Z.ltb_lt in En. apply scaled_floor_within; [assumption|].
      rewrite Z.abs_neq in Hn by lia. lia.
    + apply Z.ltb_ge in En. apply scaled_floor_within; [assumption|].
      rewrite Z.abs_eq in Hn by lia. lia.
Qed.

End DayCountBounds.

(** ** The parsed service *)

Section ServiceFacts.

Import ServiceSpec.

Lemma last_of_in g ms m :
  last_of g ms = Some m -> In m ms /\ lastgroup m = g.
Proof.
  induction ms as [|m0 rest IH]; simpl; [discriminate|].
  destruct (last_of g rest) as [m'|].
  - intros H; inversion H; subst. destruct (IH eq_refl) as [Hin Hg].
    split; [right; exact Hin|exact Hg].
  - destruct (group_eqb (lastgroup m0) g) eqn:E; [|discriminate].
    intros H; inversion H; subst. split; [left; reflexivity|].
    destruct (lastgroup m), g; try discriminate; reflexivity.
Qed.

(** The text of every match: a sigil and a run for an IP or port part, a
    run for a hostname part. *)
Lemma finditer_shapes s :
  forall m, In m (finditer s) ->
    exists c w,
      mgroup m = String c w /\ PyStr.forallb not_sigil w = true
      /\ match lastgroup m with
         | g_ip => c = "@"%char /\ w <> EmptyString
         | g_port => c = ":"%char /\ w <> EmptyString
         | g_hostname => not_sigil c = true
         end.
Proof.
  induction s as [| c r w r' E IH] using scan_ind; intros m Hin.
  - destruct Hin.
  - destruct (span_spec _ _ _ _ E) as (_ & Hw & _).
    rewrite finditer_step, E in Hin.
    destruct (Ascii.eqb c "@" || Ascii.eqb c ":") eqn:Hc.
    + destruct (PyStr.is_empty w) eqn:Ew; [exact (IH m Hin)|].
      destruct Hin as [<-|Hin]; [|exact (IH m Hin)].
      exists c, w. split; [reflexivity|]. split; [exact Hw|]. simpl.
      assert (Hne : w <> EmptyString) by (intros ->; discriminate Ew).
      destruct (Ascii.eqb_spec c "@") as [->|Hn]; [split; [reflexivity|exact Hne]|].
      simpl in Hc. apply Ascii.eqb_eq in Hc. split; assumption.
    + destruct Hin as [<-|Hin]; [|exact (IH m Hin)].
      exists c, w. split; [reflexivity|]. split; [exact Hw|]. simpl.
      unfold not_sigil. rewrite Hc. reflexivity.
Qed.

(** X7.  [str(Service(token))] is the token: the description is kept as
    given. *)
Theorem repr_is_token d s :
  Service_init d = Return s -> Service_repr s = d.
Proof.
  unfold Service_init, Service_repr. intros H.
  destruct (Service_loop_fields _ _ _ H) as (Hd & _). exact Hd.
Qed.

(** X8.  The IP override of a parsed token, when there is one, is not empty
    and holds no '@' and no ':': an address written with colons cannot be
    given. *)
Theorem ip_override_is_part d s :
  Service_init d = Return s ->
  forall i, ip s = Some i -> part i.
Proof.
  unfold Service_init. intros H i Hi.
  destruct (Service_loop_fields _ _ _ H) as (_ & Hip & _). simpl in Hip.
  rewrite Hi in Hip.
  destruct (last_of g_ip (finditer d)) as [m|] eqn:El; [|discriminate].
  inversion Hip; subst i.
  destruct (last_of_in _ _ _ El) as [Hin Hg].
  destruct (finditer_shapes d m Hin) as (c & w & Hm & Hw & Hshape).
  rewrite Hg in Hshape. rewrite Hm. simpl. destruct Hshape as [_ Hne].
  split; assumption.
Qed.


End ServiceFacts.

(** ** The tokens of a host file *)

Section FileFacts.

Lemma split_nonempty sep s : PyStr.split sep s <> [].
Proof.
  destruct s as [|c r]; simpl; [discriminate|].
  destruct (Ascii.eqb c sep); [discriminate|].
  destruct (PyStr.split sep r); discriminate.
Qed.

Lemma split_app sep a b :
  PyStr.split sep (a ++ String sep b)
  = (PyStr.split sep a ++ PyStr.split sep b)%list.
Proof.
  induction a as [|c a IH]; simpl.
  - rewrite Ascii.eqb_refl. reflexivity.
  - destruct (Ascii.eqb c sep); [rewrite IH; reflexivity|].
    rewrite IH. pose proof (split_nonempty sep a) as Hne.
    destruct (PyStr.split sep a); [contradiction|reflexivity].
Qed.

(** X10.  Two files put one after the other, a newline between them, give the
    tokens of the first and then those of the second; a newline at the
    end of a file changes nothing. *)
Theorem hosts_of_file_concat a b :
  hosts_of_file (a ++ String newline b)
  = (hosts_of_file a ++ hosts_of_file b)%list
  /\ hosts_of_file (a ++ String newline EmptyString) = hosts_of_file a.
Proof.
  assert (H : forall x y, hosts_of_file (x ++ String newline y)
                          = (hosts_of_file x ++ hosts_of_file y)%list).
  { intros x y. unfold hosts_of_file. fold newline.
    rewrite split_app, filter_app, map_app. reflexivity. }
  split; [apply H|]. rewrite H. apply app_nil_r.
Qed.

Lemma rev_onto_app acc s :
  PyStr.rev_onto acc s = PyStr.rev s ++ acc.
Proof.
  unfold PyStr.rev. revert acc.
  induction s as [|c r IH]; intros acc; simpl; [reflexivity|].
  rewrite IH, (IH (String c EmptyString)).
  clear IH. induction (PyStr.rev_onto EmptyString r) as [|d t IHt]; simpl;
    [reflexivity|]. rewrite IHt. reflexivity.
Qed.

Lemma rev_cons c s :
  PyStr.rev (String c s) = PyStr.rev s ++ String c EmptyString.
Proof. unfold PyStr.rev at 1. simpl. apply rev_onto_app. Qed.

Lemma rev_snoc s c :
  PyStr.rev (s ++ String c EmptyString) = String c (PyStr.rev s).
Proof.
  induction s as [|d s IH]; [reflexivity|].
  change (String d s ++ String c EmptyString)
    with (String d (s ++ String c EmptyString)).
  rewrite !rev_cons, IH. reflexivity.
Qed.

Lemma rev_involutive s : PyStr.rev (PyStr.rev s) = s.
Proof.
  induction s as [|c s IH]; [reflexivity|].
  rewrite rev_cons, rev_snoc, IH. reflexivity.
Qed.

Lemma lstrip_left_stripped p s : left_stripped p (PyStr.lstrip p s).
Proof.
  induction s as [|c r IH]; simpl; [exact I|].
  destruct (p c) eqn:E; [exact IH|exact E].
Qed.

Lemma lstrip_fixed p s : left_stripped p s -> PyStr.lstrip p s = s.
Proof.
  destruct s as [|c r]; simpl; [reflexivity|]. intros ->. reflexivity.
Qed.

Lemma lstrip_snoc p u c :
  p c = false ->
  exists t, PyStr.lstrip p (u ++ String c EmptyString)
            = t ++ String c EmptyString.
Proof.
  intros Hc. induction u as [|d u IH]; simpl.
  - rewrite Hc. exists EmptyString. reflexivity.
  - destruct (p d); [exact IH|].
    exists (String d u). reflexivity.
Qed.

Lemma rstrip_keeps_left p s :
  left_stripped p s -> left_stripped p (PyStr.rstrip p s).
Proof.
  destruct s as [|c r]; [intros _; exact I|]. simpl. intros Hc.
  unfold PyStr.rstrip. rewrite rev_cons.
  destruct (lstrip_snoc p (PyStr.rev r) c Hc) as [t ->].
  rewrite rev_snoc. exact Hc.
Qed.

Lemma rstrip_idempotent p s :
  PyStr.rstrip p (PyStr.rstrip p s) = PyStr.rstrip p s.
Proof.
  unfold PyStr.rstrip. rewrite rev_involutive.
  rewrite (lstrip_fixed p (PyStr.lstrip p (PyStr.rev s)))
    by apply lstrip_left_stripped.
  reflexivity.
Qed.

Lemma strip_idempotent s : PyStr.strip (PyStr.strip s) = PyStr.strip s.
Proof.
  unfold PyStr.strip.
  rewrite (lstrip_fixed PyStr.is_space
             (PyStr.rstrip PyStr.is_space (PyStr.lstrip PyStr.is_space s))).
  - apply rstrip_idempotent.
  - apply rstrip_keeps_left, lstrip_left_stripped.
Qed.

(** X11.  Every token taken from the file is stripped: it begins and ends with
    no white space (the positional hosts are taken as typed). *)
Theorem file_tokens_stripped contents token :
  In token (hosts_of_file contents) ->
  PyStr.strip token = token
  /\ left_stripped PyStr.is_space token
  /\ left_stripped PyStr.is_space (PyStr.rev token).
Proof.
  unfold hosts_of_file. intros Hin.
  apply in_map_iff in Hin as (line & <- & _).
  split; [apply strip_idempotent|]. split.
  - unfold PyStr.strip. apply rstrip_keeps_left, lstrip_left_stripped.
  - unfold PyStr.strip, PyStr.rstrip. rewrite rev_involutive.
    apply lstrip_left_stripped.
Qed.

End FileFacts.

(** ** The run of [main] *)

Section MainFacts.

Variable W : World.
Variable float : string -> result Q.




(** What one turn of the loop does, for a token that parses and limits
    that are in range. *)
Lemma check_parsed delimiter v c a o lo hi dl host s ll lh r :
  Service_init host = Return s ->
  Main.timedelta_days lo = Return ll ->
  Main.timedelta_days hi = Return lh ->
  Main.check W delimiter v c a o lo hi dl host r =
  match validate_certificate W s ll lh o dl (Main.net r) with
  | (Raise (CertificateValidationError _ msg), st) =>
      (Return tt,
       Main.mk_run st
         (Main.out r ++ Main.writerow delimiter [host; msg]
                     :: (if negb (py_bool c) && py_bool a
                         then [Main.print Main.bell] else [])))
  | (Raise e, st) => (Raise e, Main.mk_run st (Main.out r))
  | (Return _, st) =>
      (Return tt,
       Main.mk_run st
         (Main.out r ++ (if py_bool v
                         then [Main.writerow delimiter [host; "OK"]]
                         else [])))
  end.
Proof.
  intros Hs Hl Hh.
  assert (Hd : Service_repr s = host).
  { unfold Service_init in Hs.
    destruct (Service_loop_fields _ _ _ Hs) as (Hd & _). exact Hd. }
  unfold Main.check, Main.io_bind, Main.eval, Main.lift.
  rewrite Hs, Hl, Hh, Hd.
  destruct (validate_certificate W s ll lh o dl (Main.net r)) as [x st].
  destruct x as [e|u].
  - destruct e; try reflexivity.
    unfold Main.emit, Main.io_ret. simpl.
    destruct (negb (py_bool c) && py_bool a); simpl.
    + rewrite <- app_assoc. reflexivity.
    + reflexivity.
  - unfold Main.emit, Main.io_ret.
    destruct (py_bool v); simpl; [reflexivity|].
    rewrite app_nil_r. destruct r; reflexivity.
Qed.

Lemma timedelta_days_raises n e :
  Main.timedelta_days n = Raise e -> exists err, e = Foreign err.
Proof.
  unfold Main.timedelta_days.
  destruct ((n <? -2147483648) || (2147483647 <? n));
    [intros H; inversion H; eexists; reflexivity|].
  destruct ((n <? -999999999) || (999999999 <? n));
    intros H; inversion H; eexists; reflexivity.
Qed.

(** What one turn does when it does not come to the validation. *)
Lemma check_unparsed delimiter v c a o lo hi dl host r :
  match Service_init host with
  | Raise e =>
      Main.check W delimiter v c a o lo hi dl host r = (Raise e, r)
  | Return s =>
      match Main.timedelta_days lo with
      | Raise e =>
          Main.check W delimiter v c a o lo hi dl host r = (Raise e, r)
      | Return ll =>
          match Main.timedelta_days hi with
          | Raise e =>
              Main.check W delimiter v c a o lo hi dl host r = (Raise e, r)
          | Return lh => True
          end
      end
  end.
Proof.
  unfold Main.check, Main.io_bind, Main.eval.
  destruct (Service_init host) as [e0|s]; [reflexivity|].
  destruct (Main.timedelta_days lo) as [e1|ll] eqn:Hl.
  { destruct (timedelta_days_raises _ _ Hl) as [err ->]. reflexivity. }
  destruct (Main.timedelta_days hi) as [e2|lh] eqn:Hh; [|exact I].
  destruct (timedelta_days_raises _ _ Hh) as [err ->]. reflexivity.
Qed.

(** A turn that raises writes nothing. *)
Lemma check_raises_silent delimiter v c a o lo hi dl host r e r' :
  Main.check W delimiter v c a o lo hi dl host r = (Raise e, r') ->
  Main.out r' = Main.out r.
Proof.
  pose proof (check_unparsed delimiter v c a o lo hi dl host r) as Hu.
  destruct (Service_init host) as [e0|s] eqn:Hs;
    [rewrite Hu; intros H; inversion H; reflexivity|].
  destruct (Main.timedelta_days lo) as [e1|ll] eqn:Hl;
    [rewrite Hu; intros H; inversion H; reflexivity|].
  destruct (Main.timedelta_days hi) as [e2|lh] eqn:Hh;
    [rewrite Hu; intros H; inversion H; reflexivity|].
  rewrite (check_parsed _ _ _ _ _ _ _ _ _ _ _ _ _ Hs Hl Hh).
  destruct (validate_certificate W s ll lh o dl (Main.net r)) as [x st].
  destruct x as [e3|u]; [|intros H; inversion H].
  destruct e3; intros H; inversion H; reflexivity.
Qed.

(** A turn that returns: the token parsed, the limits were in range, the
    validation returned or raised a CertificateValidationError, and the
    output grew by the row of the token, if any. *)
Lemma check_returns delimiter v c a o lo hi dl host r r' :
  Main.check W delimiter v c a o lo hi dl host r = (Return tt, r') ->
  exists s ll lh,
    Service_init host = Return s
    /\ Main.timedelta_days lo = Return ll
    /\ Main.timedelta_days hi = Return lh
    /\ Main.net r'
       = snd (validate_certificate W s ll lh o dl (Main.net r))
    /\ ((fst (validate_certificate W s ll lh o dl (Main.net r)) = Return tt
         /\ Main.out r'
            = (Main.out r ++ (if py_bool v
                              then [Main.writerow delimiter [host; "OK"]]
                              else []))%list)
        \/ (exists site msg,
              fst (validate_certificate W s ll lh o dl (Main.net r))
              = Raise (CertificateValidationError site msg)
              /\ Main.out r'
                 = (Main.out r ++ Main.writerow delimiter [host; msg]
                               :: (if negb (py_bool c) && py_bool a
                                   then [Main.print Main.bell]
                                   else []))%list)).
Proof.
  intros H.
  pose proof (check_unparsed delimiter v c a o lo hi dl host r) as Hu.
  destruct (Service_init host) as [e0|s] eqn:Hs;
    [rewrite Hu in H; discriminate|].
  destruct (Main.timedelta_days lo) as [e1|ll] eqn:Hl;
    [rewrite Hu in H; discriminate|].
  destruct (Main.timedelta_days hi) as [e2|lh] eqn:Hh;
    [rewrite Hu in H; discriminate|].
  rewrite (check_parsed _ _ _ _ _ _ _ _ _ _ _ _ _ Hs Hl Hh) in H.
  exists s, ll, lh. repeat (split; [reflexivity|]).
  destruct (validate_certificate W s ll lh o dl (Main.net r)) as [x st].
  destruct x as [e|u].
  - destruct e; try discriminate. inversion H; subst. simpl.
    split; [reflexivity|]. right. eexists; eexists. split; reflexivity.
  - inversion H; subst. simpl. split; [reflexivity|]. left.
    destruct u. split; reflexivity.
Qed.

(** [main] once its arguments are converted. *)
Lemma main_converted args lo hi dl r :
  Main.int_arg (Main.low args) = Return lo ->
  Main.int_arg (Main.high args) = Return hi ->
  Main.float_arg float (Main.delay args) = Return dl ->
  Main.main W float args r =
  Main.for_each (main_hosts (Main.hosts args) (Main.from_file args))
    (Main.check W (if 0 <? Main.csv args then ";"%char else ":"%char)
                (Main.verbose args) (Main.csv args) (Main.attention args)
                (Main.ocsp args) lo hi dl)
    (if 0 <? Main.csv args
     then Main.mk_run (Main.net r)
            (Main.out r ++ [Main.writerow ";" ["Service"; "Status"]])
     else r).
Proof.
  intros Hl Hh Hd. unfold Main.main, Main.io_bind, Main.eval.
  rewrite Hl, Hh, Hd.
  destruct (0 <? Main.csv args); reflexivity.
Qed.

(** When a conversion fails [main] raises at once. *)
Lemma main_unconverted args r e r' :
  Main.main W float args r = (Raise e, r') ->
  (forall lo hi dl,
      Main.int_arg (Main.low args) = Return lo ->
      Main.int_arg (Main.high args) = Return hi ->
      Main.float_arg float (Main.delay args) = Return dl -> False) ->
  r' = r.
Proof.
  unfold Main.main, Main.io_bind, Main.eval. intros H Hno.
  destruct (Main.int_arg (Main.low args)) as [e1|lo];
    [inversion H; reflexivity|].
  destruct (Main.int_arg (Main.high args)) as [e2|hi];
    [inversion H; reflexivity|].
  destruct (Main.float_arg float (Main.delay args)) as [e3|dl];
    [inversion H; reflexivity|].
  exfalso. exact (Hno lo hi dl eq_refl eq_refl eq_refl).
Qed.

End MainFacts.

Section MainClaims.

Variable W : World.
Variable float : string -> result Q.

Lemma rows_app a b : rows (a ++ b) = (rows a ++ rows b)%list.
Proof.
  induction a as [|o a IH]; simpl; [reflexivity|].
  destruct o; simpl; rewrite IH; reflexivity.
Qed.


Lemma for_each_step body h rest r :
  Main.for_each (h :: rest) body r =
  match body h r with
  | (Raise e, r1) => (Raise e, r1)
  | (Return _, r1) => Main.for_each rest body r1
  end.
Proof. reflexivity. Qed.

(** A property of the run kept by every turn is kept by the loop. *)
Lemma for_each_invariant (I : Main.Run -> Prop) body :
  (forall h r x r', I r -> body h r = (x, r') -> I r') ->
  forall items r x r',
    I r -> Main.for_each items body r = (x, r') -> I r'.
Proof.
  intros Hstep. induction items as [|h rest IH]; intros r x r' Hr H.
  - inversion H; subst. exact Hr.
  - rewrite for_each_step in H.
    destruct (body h r) as [y r1] eqn:Hb.
    pose proof (Hstep h r y r1 Hr Hb) as Hr1.
    destruct y as [e|u]; [inversion H; subst; exact Hr1|].
    exact (IH r1 x r' Hr1 H).
Qed.

Lemma main_returns args r r' :
  Main.main W float args r = (Return tt, r') ->
  exists lo hi dl,
    Main.int_arg (Main.low args) = Return lo
    /\ Main.int_arg (Main.high args) = Return hi
    /\ Main.float_arg float (Main.delay args) = Return dl.
Proof.
  unfold Main.main, Main.io_bind, Main.eval.
  destruct (Main.int_arg (Main.low args)) as [e1|lo]; [discriminate|].
  destruct (Main.int_arg (Main.high args)) as [e2|hi]; [discriminate|].
  destruct (Main.float_arg float (Main.delay args)) as [e3|dl];
    [discriminate|].
  intros _. exists lo, hi, dl. repeat split.
Qed.

Lemma loop_rows_verbose d v c a o lo hi dl :
  py_bool v = true ->
  forall items r r',
    Main.for_each items (Main.check W d v c a o lo hi dl) r = (Return tt, r') ->
    map first_field (rows (Main.out r'))
    = (map first_field (rows (Main.out r)) ++ items)%list.
Proof.
  intros Hv. induction items as [|h rest IH]; intros r r' H.
  - inversion H; subst. rewrite app_nil_r. reflexivity.
  - rewrite for_each_step in H.
    destruct (Main.check W d v c a o lo hi dl h r) as [y r1] eqn:Hb.
    destruct y as [e|[]]; [discriminate|].
    rewrite (IH r1 r' H).
    destruct (check_returns W _ _ _ _ _ _ _ _ _ _ _ Hb)
      as (s & ll & lh & _ & _ & _ & _ & [[_ Ho] | (site & msg & _ & Ho)]);
      rewrite Ho, rows_app, map_app, <- app_assoc; f_equal.
    + rewrite Hv. reflexivity.
    + destruct (negb (py_bool c) && py_bool a); reflexivity.
Qed.

(** X12.  In verbose mode a run of [main] that ends normally has written one
    row for every host, positional ones first and then those of the
    file, in their order, each row beginning with the token as it was
    given (after the header row in CSV mode). *)
Theorem verbose_lists_every_host args r' :
  Main.main W float args Main.start = (Return tt, r') ->
  py_bool (Main.verbose args) = true ->
  map first_field (rows (Main.out r'))
  = ((if 0 <? Main.csv args then ["Service"] else []) ++ all_hosts args)%list.
Proof.
  intros H Hv.
  destruct (main_returns _ _ _ H) as (lo & hi & dl & Hl & Hh & Hd).
  rewrite (main_converted W float _ _ _ _ _ Hl Hh Hd) in H.
  rewrite (loop_rows_verbose _ _ _ _ _ _ _ _ Hv _ _ _ H).
  unfold all_hosts. destruct (0 <? Main.csv args); reflexivity.
Qed.



(** X14.  When the arguments convert, the limits are in range, every token
    parses and the validations only return or raise
    CertificateValidationError, [main] ends normally: a failure of that
    kind on one host does not stop the run. *)
Theorem failures_do_not_stop args lo hi dl ll lh r :
  Main.int_arg (Main.low args) = Return lo ->
  Main.int_arg (Main.high args) = Return hi ->
  Main.float_arg float (Main.delay args) = Return dl ->
  Main.timedelta_days lo = Return ll ->
  Main.timedelta_days hi = Return lh ->
  (forall host, In host (all_hosts args) ->
     exists s, Service_init host = Return s
               /\ forall st,
                    handled (outcome (validate_certificate W s ll lh
                                        (Main.ocsp args) dl st))) ->
  fst (Main.main W float args r) = Return tt.
Proof.
  intros Hl Hh Hd Hll Hlh Hall.
  rewrite (main_converted W float _ _ _ _ _ Hl Hh Hd).
  fold (all_hosts args).
  generalize (if 0 <? Main.csv args
              then Main.mk_run (Main.net r)
                     (Main.out r ++ [Main.writerow ";" ["Service"; "Status"]])
              else r).
  induction (all_hosts args) as [|h rest IH]; intros r0; [reflexivity|].
  rewrite for_each_step.
  destruct (Hall h (or_introl eq_refl)) as (s & Hs & Hok).
  rewrite (check_parsed W _ _ _ _ _ _ _ _ _ _ _ _ _ Hs Hll Hlh).
  specialize (Hok (Main.net r0)). unfold outcome in Hok.
  destruct (validate_certificate W s ll lh (Main.ocsp args) dl (Main.net r0))
    as [x st].
  simpl in Hok.
  assert (Hrest : forall host, In host rest ->
            exists s, Service_init host = Return s
                      /\ forall st,
                           handled (outcome (validate_certificate W s ll lh
                                               (Main.ocsp args) dl st)))
    by (intros host Hin; apply Hall; right; exact Hin).
  destruct x as [e|u].
  - destruct e; try contradiction. apply (IH Hrest).
  - apply (IH Hrest).
Qed.

(** X15.  A token that does not parse stops the loop where it stands: the
    exception of the parser comes out, and after the turns of the hosts
    before it nothing more is called or written, neither for it nor for
    the hosts after it. *)
Theorem unparsable_token_stops d v c a o lo hi dl before bad after e r r1 :
  Main.for_each before (Main.check W d v c a o lo hi dl) r = (Return tt, r1) ->
  Service_init bad = Raise e ->
  Main.for_each (before ++ bad :: after) (Main.check W d v c a o lo hi dl) r
  = (Raise e, r1).
Proof.
  intros Hb He. revert r Hb.
  induction before as [|h rest IH]; intros r Hb.
  - inversion Hb; subst. simpl app. rewrite for_each_step.
    pose proof (check_unparsed W d v c a o lo hi dl bad r1) as Hu.
    rewrite He in Hu. rewrite Hu. reflexivity.
  - change ((h :: rest) ++ bad :: after)%list
      with (h :: (rest ++ bad :: after))%list.
    rewrite for_each_step in *.
    destruct (Main.check W d v c a o lo hi dl h r) as [y r2].
    destruct y as [e'|u]; [discriminate|]. exact (IH r2 Hb).
Qed.

End MainClaims.

Section MainOutput.

Variable W : World.
Variable float : string -> result Q.

(** Either the arguments convert and [main] is its loop, or [main] raises
    where it stands. *)
Lemma main_cases args r :
  (exists lo hi dl,
      Main.main W float args r =
      Main.for_each (all_hosts args)
        (Main.check W (delimiter_of args) (Main.verbose args) (Main.csv args)
                    (Main.attention args) (Main.ocsp args) lo hi dl)
        (if 0 <? Main.csv args
         then Main.mk_run (Main.net r) (Main.out r ++ [header])
         else r))
  \/ (exists e, Main.main W float args r = (Raise e, r)).
Proof.
  destruct (Main.int_arg (Main.low args)) as [e1|lo] eqn:Hl.
  { right. exists e1. unfold Main.main, Main.io_bind, Main.eval.
    rewrite Hl. reflexivity. }
  destruct (Main.int_arg (Main.high args)) as [e2|hi] eqn:Hh.
  { right. exists e2. unfold Main.main, Main.io_bind, Main.eval.
    rewrite Hl, Hh. reflexivity. }
  destruct (Main.float_arg float (Main.delay args)) as [e3|dl] eqn:Hd.
  { right. exists e3. unfold Main.main, Main.io_bind, Main.eval.
    rewrite Hl, Hh, Hd. reflexivity. }
  left. exists lo, hi, dl. apply (main_converted W float _ _ _ _ _ Hl Hh Hd).
Qed.

(** What a turn adds to the output. *)
Lemma check_output d v c a o lo hi dl h r x r' :
  Main.check W d v c a o lo hi dl h r = (x, r') ->
  Main.out r' = Main.out r
  \/ (py_bool v = true
      /\ Main.out r' = (Main.out r ++ [Main.writerow d [h; "OK"]])%list)
  \/ (exists msg,
        Main.out r' = (Main.out r ++ [Main.writerow d [h; msg]])%list
        /\ negb (py_bool c) && py_bool a = false)
  \/ (exists msg,
        Main.out r'
        = (Main.out r ++ [Main.writerow d [h; msg]; Main.print Main.bell])%list
        /\ py_bool c = false /\ py_bool a = true).
Proof.
  intros H. destruct x as [e|[]].
  - left. exact (check_raises_silent W _ _ _ _ _ _ _ _ _ _ _ _ H).
  - destruct (check_returns W _ _ _ _ _ _ _ _ _ _ _ H)
      as (s & ll & lh & _ & _ & _ & _ & [[_ Ho] | (site & msg & _ & Ho)]).
    + destruct (py_bool v); [right; left; split; [reflexivity|exact Ho]|].
      left. rewrite Ho. apply app_nil_r.
    + destruct (negb (py_bool c) && py_bool a) eqn:E.
      * right; right; right. exists msg. split; [exact Ho|].
        apply andb_true_iff in E as [Ec Ea].
        apply negb_true_iff in Ec. split; assumption.
      * right; right; left. exists msg. split; [exact Ho|reflexivity].
Qed.

Lemma existsb_print_app a b :
  existsb is_print (a ++ b) = existsb is_print a || existsb is_print b.
Proof. apply existsb_app. Qed.

Lemma belled_app a b :
  belled a = true -> belled (a ++ b) = belled b.
Proof.
  assert (H : forall n a, (List.length a <= n)%nat ->
                          belled a = true -> belled (a ++ b) = belled b).
  { induction n as [|n IH]; intros [|x [|y l]] Hn Hl; simpl in *;
      try reflexivity; try lia; try (destruct x; discriminate).
    destruct x; [|discriminate]. destruct y; [discriminate|].
    apply IH; [lia|exact Hl]. }
  apply (H (List.length a)). lia.
Qed.

(** X16.  The bell is printed only on request and outside the CSV mode: with
    [--csv] or without [--attention] nothing is ever printed; with
    [--attention], without [--csv] and without [--verbose], every row
    written is followed at once by a bell. *)
Theorem bell_only_on_request args :
  (py_bool (Main.csv args) = true \/ py_bool (Main.attention args) = false ->
   existsb is_print (Main.out (snd (Main.main W float args Main.start)))
   = false)
  /\ (py_bool (Main.csv args) = false ->
      py_bool (Main.attention args) = true ->
      py_bool (Main.verbose args) = false ->
      belled (Main.out (snd (Main.main W float args Main.start))) = true).
Proof.
  split.
  - intros Hoff.
    destruct (main_cases args Main.start) as [(lo & hi & dl & ->) | [e ->]];
      [|reflexivity].
    set (I := fun r => existsb is_print (Main.out r) = false).
    assert (Hstep : forall h r y r1, I r ->
              Main.check W (delimiter_of args) (Main.verbose args)
                (Main.csv args) (Main.attention args) (Main.ocsp args)
                lo hi dl h r = (y, r1) -> I r1).
    { intros h r y r1 Hr Hc. unfold I in *.
      destruct (check_output _ _ _ _ _ _ _ _ _ _ _ _ Hc)
        as [-> | [[_ ->] | [(msg & -> & Hb) | (msg & -> & Hcsv & Hat)]]];
        try exact Hr; rewrite existsb_print_app, Hr; try reflexivity.
      destruct Hoff as [Hoff|Hoff]; congruence. }
    assert (Hinit : I (if 0 <? Main.csv args
                       then Main.mk_run (Main.net Main.start)
                              (Main.out Main.start ++ [header])
                       else Main.start))
      by (unfold I; destruct (0 <? Main.csv args); reflexivity).
    destruct (Main.for_each _ _ _) as [x r'] eqn:Hrun. simpl.
    exact (for_each_invariant I _ Hstep _ _ _ _ Hinit Hrun).
  - intros Hcsv Hat Hv.
    assert (Hc0 : (0 <? Main.csv args) = false).
    { unfold py_bool in Hcsv. apply negb_false_iff, Z.eqb_eq in Hcsv.
      rewrite Hcsv. reflexivity. }
    destruct (main_cases args Main.start) as [(lo & hi & dl & ->) | [e ->]];
      [|reflexivity].
    rewrite Hc0.
    set (I := fun r => belled (Main.out r) = true).
    assert (Hstep : forall h r y r1, I r ->
              Main.check W (delimiter_of args) (Main.verbose args)
                (Main.csv args) (Main.attention args) (Main.ocsp args)
                lo hi dl h r = (y, r1) -> I r1).
    { intros h r y r1 Hr Hc. unfold I in *.
      destruct (check_output _ _ _ _ _ _ _ _ _ _ _ _ Hc)
        as [-> | [[Hv' _] | [(msg & _ & Hb) | (msg & -> & _ & _)]]].
      - exact Hr.
      - congruence.
      - rewrite Hcsv, Hat in Hb. discriminate.
      - rewrite (belled_app _ _ Hr). reflexivity. }
    assert (Hinit : I Main.start) by reflexivity.
    destruct (Main.for_each _ _ _) as [x r'] eqn:Hrun. simpl.
    exact (for_each_invariant I _ Hstep _ _ _ _ Hinit Hrun).
Qed.

(** X17.  Every row of a run is written with one delimiter, ';' in CSV mode and
    ':' otherwise; in CSV mode, once the arguments are converted, the
    header row is the first thing written, before any host is tried. *)
Theorem one_delimiter args :
  (forall o d,
      In o (Main.out (snd (Main.main W float args Main.start))) ->
      row_delimiter o = Some d -> d = delimiter_of args)
  /\ (forall lo hi dl,
        Main.int_arg (Main.low args) = Return lo ->
        Main.int_arg (Main.high args) = Return hi ->
        Main.float_arg float (Main.delay args) = Return dl ->
        (0 <? Main.csv args) = true ->
        hd_error (Main.out (snd (Main.main W float args Main.start)))
        = Some header).
Proof.
  split.
  - destruct (main_cases args Main.start) as [(lo & hi & dl & ->) | [e ->]];
      [|intros o d []].
    set (I := fun r => forall o d, In o (Main.out r) ->
                                   row_delimiter o = Some d ->
                                   d = delimiter_of args).
    assert (Hstep : forall h r y r1, I r ->
              Main.check W (delimiter_of args) (Main.verbose args)
                (Main.csv args) (Main.attention args) (Main.ocsp args)
                lo hi dl h r = (y, r1) -> I r1).
    { intros h r y r1 Hr Hc o d Hin Hd.
      destruct (check_output _ _ _ _ _ _ _ _ _ _ _ _ Hc)
        as [Ho | [[_ Ho] | [(msg & Ho & _) | (msg & Ho & _)]]];
        rewrite Ho in Hin; try exact (Hr o d Hin Hd);
        apply in_app_or in Hin as [Hin|Hin]; try exact (Hr o d Hin Hd);
        simpl in Hin; repeat (destruct Hin as [<-|Hin]; [simpl in Hd|]);
        try contradiction; try discriminate; inversion Hd; reflexivity. }
    assert (Hinit : I (if 0 <? Main.csv args
                       then Main.mk_run (Main.net Main.start)
                              (Main.out Main.start ++ [header])
                       else Main.start)).
    { unfold I, delimiter_of. destruct (0 <? Main.csv args); simpl.
      - intros o d [<-|[]] Hd. inversion Hd. reflexivity.
      - intros o d []. }
    destruct (Main.for_each _ _ _) as [x r'] eqn:Hrun. simpl.
    exact (for_each_invariant I _ Hstep _ _ _ _ Hinit Hrun).
  - intros lo hi dl Hl Hh Hd Hcsv.
    rewrite (main_converted W float _ _ _ _ _ Hl Hh Hd), Hcsv.
    set (I := fun r => hd_error (Main.out r) = Some header).
    assert (Hstep : forall h r y r1, I r ->
              Main.check W ";" (Main.verbose args)
                (Main.csv args) (Main.attention args) (Main.ocsp args)
                lo hi dl h r = (y, r1) -> I r1).
    { intros h r y r1 Hr Hc. unfold I in *.
      destruct (check_output _ _ _ _ _ _ _ _ _ _ _ _ Hc)
        as [Ho | [[_ Ho] | [(msg & Ho & _) | (msg & Ho & _)]]];
        rewrite Ho; try exact Hr;
        destruct (Main.out r); try discriminate; exact Hr. }
    assert (Hinit : I (Main.mk_run (Main.net Main.start)
                         (Main.out Main.start
                          ++ [Main.writerow ";" ["Service"; "Status"]])))
      by reflexivity.
    destruct (Main.for_each _ _ _) as [x r'] eqn:Hrun. simpl.
    exact (for_each_invariant I _ Hstep _ _ _ _ Hinit Hrun).
Qed.


End MainOutput.

Section MoreEdges.

Variable W : World.
Variable float : string -> result Q.

(** The digits of a decimal numeral, their number and their value. *)
Lemma uint_digits d :
  PyStr.forallb PyInt.is_digit (NilEmpty.string_of_uint d) = true.
Proof. induction d; simpl; try exact IHd; reflexivity. Qed.

Lemma uint_length d :
  Z.of_nat (String.length (NilEmpty.string_of_uint d))
  = Z.of_N (DecimalPos.Unsigned.usize d).
Proof.
  induction d;
    cbn [NilEmpty.string_of_uint String.length DecimalPos.Unsigned.usize];
    try reflexivity; rewrite Nat2Z.inj_succ, IHd; lia.
Qed.

Lemma uint_value d :
  decimal_value (NilEmpty.string_of_uint d) = Z.of_N (Pos.of_uint d).
Proof.
  rewrite DecimalPos.Unsigned.of_uint_alt.
  induction d;
    cbn [NilEmpty.string_of_uint decimal_value]; [reflexivity|..];
    unfold Decimal.rev; cbn [Decimal.revapp];
    rewrite DecimalPos.Unsigned.of_lu_revapp, IHd, uint_length;
    cbn [DecimalPos.Unsigned.of_lu];
    rewrite N2Z.inj_add, N2Z.inj_mul, N2Z.inj_pow;
    unfold Decimal.rev; vm_compute PyInt.digit_value; lia.
Qed.

(** [f"{n:.0f}"] for a count [0 < n]: a run of decimal digits, not empty,
    that reads as [n]. *)
Lemma format_0f_count n :
  0 < n ->
  PyFloat.format_0f n <> EmptyString
  /\ PyStr.forallb PyInt.is_digit (PyFloat.format_0f n) = true
  /\ decimal_value (PyFloat.format_0f n) = n.
Proof.
  destruct n as [|p|p]; try lia. intros _.
  unfold PyFloat.format_0f. cbn [Z.to_int NilZero.string_of_int].
  pose proof (DecimalPos.Unsigned.to_uint_nonnil p) as Hn.
  pose proof (DecimalPos.Unsigned.of_to p) as Hv.
  assert (He : NilZero.string_of_uint (Pos.to_uint p)
               = NilEmpty.string_of_uint (Pos.to_uint p))
    by (destruct (Pos.to_uint p); [contradiction|reflexivity..]).
  rewrite He. split; [|split].
  - destruct (Pos.to_uint p); [contradiction|discriminate..].
  - apply uint_digits.
  - rewrite uint_value, Hv. reflexivity.
Qed.

(** Below zero: the sign, then the count without it. *)
Lemma format_0f_negative k :
  k < 0 -> PyFloat.format_0f k = String "-" (PyFloat.format_0f (- k)).
Proof. destruct k as [|p|p]; try lia. reflexivity. Qed.

(** X5.  A certificate that has expired (by less than 2^34 seconds) never
    passes when minRemaining is not negative: the validation raises at
    the ExpiringSoon site with "Certificate expires in -N days", where N
    is the time since the expiry in days, rounded up to a whole day (so
    N is at least 1), written as a run of decimal digits, not empty,
    that reads as N. *)
Theorem expired_certificate_fails service low high check_ocsp delay st cert
        st1 na nb :
  get_server_certificate W service delay st = (Return cert, st1) ->
  strptime W (notAfter cert) = inr na ->
  strptime W (notBefore cert) = inr nb ->
  not_revoked W service check_ocsp ->
  na - utcnow W (clock_reads st) < 0 ->
  - exact_range < na - utcnow W (clock_reads st) ->
  0 <= low ->
  exists n,
    days (n - 1) < utcnow W (clock_reads st) - na <= days n
    /\ outcome (validate_certificate W service low high check_ocsp delay st)
       = Raise (CertificateValidationError ExpiringSoon
                  ("Certificate expires in -" ++ PyFloat.format_0f n
                   ++ " days"))
    /\ PyFloat.format_0f n <> EmptyString
    /\ PyStr.forallb PyInt.is_digit (PyFloat.format_0f n) = true
    /\ decimal_value (PyFloat.format_0f n) = n.
Proof.
  intros Hf Ha Hb Hr Hneg Hrange Hlow.
  rewrite (validate_unrevoked W _ low high _ _ _ _ _ _ _ Hf Ha Hb Hr).
  unfold policy_checks.
  destruct (Z.ltb_spec (na - utcnow W (clock_reads st)) low); [|lia].
  unfold days_message.
  rewrite whole_days_exact by lia.
  set (now1 := utcnow W (clock_reads st)) in *.
  assert (Hk : floor_days (na - now1) < 0).
  { unfold floor_days. apply Z.div_lt_upper_bound; lia. }
  exists (- floor_days (na - now1)).
  rewrite (format_0f_negative _ Hk).
  split; [|split; [reflexivity|apply format_0f_count; lia]].
  unfold floor_days, days in *.
  pose proof (Z.div_mod (na - now1) 86400000000 ltac:(lia)) as Hdm.
  pose proof (Z.mod_pos_bound (na - now1) 86400000000 ltac:(lia)) as Hm.
  lia.
Qed.

(** X19.  A limit of more than 999999999 days either way, which [timedelta]
    cannot hold: with at least one host, [main] raises the OverflowError
    at the first turn of the loop, before any connection (in CSV mode
    the header row is already written). *)
Theorem limit_out_of_range args lo hi dl h rest s :
  Main.int_arg (Main.low args) = Return lo ->
  Main.int_arg (Main.high args) = Return hi ->
  Main.float_arg float (Main.delay args) = Return dl ->
  lo < - 999999999 \/ 999999999 < lo ->
  all_hosts args = h :: rest ->
  Service_init h = Return s ->
  exists err,
    exc_cls err = OtherException
    /\ Main.main W float args Main.start
       = (Raise (Foreign err),
          Main.mk_run initial (if 0 <? Main.csv args then [header] else [])).
Proof.
  intros Hl Hh Hd Hout Hhosts Hs.
  rewrite (main_converted W float _ _ _ _ _ Hl Hh Hd).
  fold (all_hosts args). rewrite Hhosts, for_each_step.
  match goal with
  | |- context [Main.check W ?d ?v ?c ?a ?o lo hi dl h ?r] =>
      pose proof (check_unparsed W d v c a o lo hi dl h r) as Hu
  end.
  rewrite Hs in Hu.
  destruct (Main.timedelta_days lo) as [e|ll] eqn:Ht.
  - rewrite Hu. unfold Main.timedelta_days in Ht.
    destruct ((lo <? -2147483648) || (2147483647 <? lo));
      [|destruct ((lo <? -999999999) || (999999999 <? lo))];
      inversion Ht; subst; eexists; split; cycle 1;
      try (destruct (0 <? Main.csv args); reflexivity); reflexivity.
  - exfalso. unfold Main.timedelta_days in Ht.
    destruct ((lo <? -2147483648) || (2147483647 <? lo)) eqn:E1;
      [discriminate|].
    destruct ((lo <? -999999999) || (999999999 <? lo)) eqn:E2;
      [discriminate|].
    apply orb_false_iff in E2 as [E3 E4].
    apply Z.ltb_ge in E3. apply Z.ltb_ge in E4. lia.
Qed.

(** A turn that raises ends the loop there. *)
Lemma for_each_stops body before h after e r r1 r2 :
  Main.for_each before body r = (Return tt, r1) ->
  body h r1 = (Raise e, r2) ->
  Main.for_each (before ++ h :: after) body r = (Raise e, r2).
Proof.
  intros Hb He. revert r Hb.
  induction before as [|h0 rest IH]; intros r Hb.
  - inversion Hb; subst. simpl app. rewrite for_each_step, He. reflexivity.
  - change ((h0 :: rest) ++ h :: after)%list
      with (h0 :: (rest ++ h :: after))%list.
    rewrite for_each_step in *.
    destruct (body h0 r) as [y r3].
    destruct y as [e'|u]; [discriminate|]. exact (IH r3 Hb).
Qed.

(** X20.  A validation that raises anything but
    CertificateValidationError (an exception of [strptime] or of the
    checker, the IndexError of a short status list) stops the loop at
    that host: the exception comes out of it, no row is written for the
    host, and the hosts after it are not tried. *)
Theorem uncaught_failure_stops d v c a o lo hi dl before h after s ll lh e st
        r r1 :
  Main.for_each before (Main.check W d v c a o lo hi dl) r = (Return tt, r1) ->
  Service_init h = Return s ->
  Main.timedelta_days lo = Return ll ->
  Main.timedelta_days hi = Return lh ->
  validate_certificate W s ll lh o dl (Main.net r1) = (Raise e, st) ->
  ~ handled (Raise e) ->
  Main.for_each (before ++ h :: after) (Main.check W d v c a o lo hi dl) r
  = (Raise e, Main.mk_run st (Main.out r1)).
Proof.
  intros Hb Hs Hl Hh Hv Hn.
  apply (for_each_stops _ _ _ _ _ _ _ _ Hb).
  rewrite (check_parsed W _ _ _ _ _ _ _ _ _ _ _ _ _ Hs Hl Hh), Hv.
  destruct e; try reflexivity. exfalso. apply Hn. exact I.
Qed.

End MoreEdges.

(** ** The further properties at concrete inputs *)

(** X2, at an input.
    A certificate whose expiry date is no date, and one whose start date
    is no date: the exception of [strptime] comes out, after the fetch and
    the readings up to the failing one. *)
Lemma unreadable_date_propagates_witness :
  validate_certificate Runs.garbled_expiry Scenario.example_com (days 15)
                       (days 365) 1 Scenario.ten_seconds initial
  = (Raise (Foreign (Runs.unreadable "never")),
     mk_state [ev_connect (Some "example.com") 443 Scenario.ten_seconds;
               ev_handshake (Some "example.com"); ev_strptime "never"] 0)
  /\ validate_certificate Runs.garbled_start Scenario.example_com (days 15)
                          (days 365) 1 Scenario.ten_seconds initial
     = (Raise (Foreign (Runs.unreadable "never")),
        mk_state [ev_connect (Some "example.com") 443 Scenario.ten_seconds;
                  ev_handshake (Some "example.com");
                  ev_strptime "May 23 00:00:00 2027 GMT";
                  ev_strptime "never"] 0).
Proof.
  split.
  - exact (proj1 (unreadable_date_propagates Runs.garbled_expiry
                    Scenario.example_com (days 15) (days 365) 1
                    Scenario.ten_seconds initial
                    (mk_cert "never" "Oct 25 00:00:00 2026 GMT")
                    _ (Runs.unreadable "never") eq_refl) eq_refl).
  - exact (proj2 (unreadable_date_propagates Runs.garbled_start
                    Scenario.example_com (days 15) (days 365) 1
                    Scenario.ten_seconds initial
                    (mk_cert "May 23 00:00:00 2027 GMT" "never")
                    _ (Runs.unreadable "never") eq_refl)
                 (Scenario.today + days 200) eq_refl eq_refl).
Defined.

(** X3, at an input.  A checker that answers with two lines: IndexError. *)
Lemma short_status_raises_IndexError_witness :
  outcome (validate_certificate Runs.two_lines Scenario.example_com (days 15)
                                (days 365) 1 Scenario.ten_seconds initial)
  = Raise IndexError.
Proof.
  refine (short_status_raises_IndexError Runs.two_lines Scenario.example_com
            (days 15) (days 365) 1 Scenario.ten_seconds initial
            Scenario.cert_2027 _ (Scenario.today + days 200)
            (Scenario.today - days 10)
            ["Host: example.com:443"; "Error: no OCSP URL in the certificate"]
            eq_refl eq_refl eq_refl eq_refl eq_refl _).
  simpl. lia.
Defined.

(** X4, at an input.
    Exactly 200 days left with minRemaining 200 days, exactly ten days
    old with maxAge ten days: the validation passes. *)
Lemma passes_iff_within_bounds_witness :
  outcome (validate_certificate Runs.healthy Scenario.example_com (days 200)
                                (days 10) 1 Scenario.ten_seconds initial)
  = Return tt.
Proof.
  refine (proj2 (passes_iff_within_bounds Runs.healthy Scenario.example_com
                   (days 200) (days 10) 1 Scenario.ten_seconds initial
                   Scenario.cert_2027 _ (Scenario.today + days 200)
                   (Scenario.today - days 10) eq_refl eq_refl eq_refl _) _).
  - right. exists Scenario.good_status, "OCSP Status: GOOD".
    repeat split.
  - split; vm_compute; discriminate.
Defined.

(** X5, at an input.
    A certificate that ended three days ago, with the default limits: the
    count is 3. *)
Lemma expired_certificate_fails_witness :
  outcome (validate_certificate Runs.ended Scenario.example_com (days 15)
                                (days 365) 0 Scenario.ten_seconds initial)
  = Raise (CertificateValidationError ExpiringSoon
             "Certificate expires in -3 days").
Proof.
  assert (H : (Scenario.today - days 3) - Scenario.today < 0
              /\ - exact_range < (Scenario.today - days 3) - Scenario.today
              /\ 0 <= days 15)
    by (vm_compute; repeat split; discriminate).
  destruct H as (Hneg & Hrange & Hlow).
  destruct (expired_certificate_fails Runs.ended Scenario.example_com
              (days 15) (days 365) 0 Scenario.ten_seconds initial
              Runs.ended_cert _ (Scenario.today - days 3)
              (Scenario.today - days 10)
              eq_refl eq_refl eq_refl (or_introl eq_refl) Hneg Hrange Hlow)
    as (n & Hn & Hout & _).
  assert (n = 3) as -> by (unfold days in Hn; simpl in Hn; lia).
  exact Hout.
Defined.

(** X6, at an input.
    198842 days less a microsecond: the day count is the floor or one
    above it. *)
Lemma whole_days_within_one_witness :
  floor_days (days 198842 - 1) <= whole_days (days 198842 - 1)
  <= floor_days (days 198842 - 1) + 1.
Proof.
  refine (whole_days_within_one (days 198842 - 1) _).
  vm_compute. reflexivity.
Defined.

(** X7, at an input.
    The text of a token with every kind of part is given back as it is. *)
Lemma repr_is_token_witness :
  exists s,
    Service_init "example.com:8443@192.0.2.1" = Return s
    /\ Service_repr s = "example.com:8443@192.0.2.1".
Proof.
  exists (mk_service "example.com:8443@192.0.2.1" (Some "192.0.2.1") 8443
                     (Some "example.com")).
  split; [reflexivity|].
  exact (repr_is_token "example.com:8443@192.0.2.1" _ eq_refl).
Defined.

(** X8, at an input.  The override of [example.com@192.0.2.1]. *)
Lemma ip_override_is_part_witness : part "192.0.2.1".
Proof.
  exact (ip_override_is_part "example.com@192.0.2.1"
           (mk_service "example.com@192.0.2.1" (Some "192.0.2.1") 443
                       (Some "example.com"))
           eq_refl "192.0.2.1" eq_refl).
Defined.


(** X11, at an input.
    The second host of the file is written with a blank on either side
    and is taken without them. *)
Lemma file_tokens_stripped_witness :
  hosts_of_file Runs.listed = ["old.example"; "down.example:8443"]
  /\ PyStr.strip "down.example:8443" = "down.example:8443"
  /\ left_stripped PyStr.is_space "down.example:8443"
  /\ left_stripped PyStr.is_space (PyStr.rev "down.example:8443").
Proof.
  split; [reflexivity|].
  exact (file_tokens_stripped Runs.listed "down.example:8443"
           (or_intror (or_introl eq_refl))).
Defined.

(** X12, at an input.
    A verbose run in CSV mode over three hosts, of which one passes, one
    is too old and one does not answer: a row for each, after the
    header. *)
Lemma verbose_lists_every_host_witness :
  map first_field
      (rows (Main.out (snd (Main.main Runs.network Runs.float
                              (Runs.args 1 1 0 (inl 15)) Main.start))))
  = ["Service"; "example.com"; "old.example"; "down.example:8443"].
Proof.
  exact (verbose_lists_every_host Runs.network Runs.float
           (Runs.args 1 1 0 (inl 15))
           (snd (Main.main Runs.network Runs.float (Runs.args 1 1 0 (inl 15))
                           Main.start))
           eq_refl eq_refl).
Defined.


(** X14, at an input.
    On that network two of the three hosts fail; the run ends normally. *)
Lemma failures_do_not_stop_witness :
  fst (Main.main Runs.network Runs.float (Runs.args 0 0 1 (inl 15))
                 Main.start)
  = Return tt.
Proof.
  refine (failures_do_not_stop Runs.network Runs.float
            (Runs.args 0 0 1 (inl 15)) 15 365 Scenario.ten_seconds
            (days 15) (days 365) Main.start
            eq_refl eq_refl eq_refl eq_refl eq_refl _).
  intros host Hin. vm_compute in Hin.
  destruct Hin as [<-|[<-|[<-|[]]]]; eexists;
    (split; [reflexivity|]); intros [tr n]; vm_compute; exact I.
Defined.

(** X15, at an input.
    [example.com:https] after a host that passes and before another: the
    ValueError of [int("https")] comes out, with the first host's calls
    and row only. *)
Lemma unparsable_token_stops_witness :
  Main.for_each ["example.com"; "example.com:https"; "old.example"]
    (Main.check Runs.healthy ":" 1 0 0 0 15 365 Scenario.ten_seconds)
    Main.start
  = (Raise (ValueError "https"),
     Main.mk_run
       (mk_state [ev_connect (Some "example.com") 443 Scenario.ten_seconds;
                  ev_handshake (Some "example.com");
                  ev_strptime "May 23 00:00:00 2027 GMT";
                  ev_strptime "Oct 25 00:00:00 2026 GMT";
                  ev_utcnow; ev_utcnow] 2)
       [Main.writerow ":" ["example.com"; "OK"]]).
Proof.
  exact (unparsable_token_stops Runs.healthy ":" 1 0 0 0 15 365
           Scenario.ten_seconds ["example.com"] "example.com:https"
           ["old.example"] (ValueError "https") Main.start _
           eq_refl eq_refl).
Defined.

(** X16, at an input.
    With [--csv] and [--attention] nothing is printed; with [--attention]
    alone each of the two failure rows is followed by a bell. *)
Lemma bell_only_on_request_witness :
  existsb is_print
          (Main.out (snd (Main.main Runs.network Runs.float
                            (Runs.args 1 1 1 (inl 15)) Main.start)))
  = false
  /\ belled (Main.out (snd (Main.main Runs.network Runs.float
                              (Runs.args 0 0 1 (inl 15)) Main.start)))
     = true.
Proof.
  split.
  - exact (proj1 (bell_only_on_request Runs.network Runs.float
                    (Runs.args 1 1 1 (inl 15))) (or_introl eq_refl)).
  - exact (proj2 (bell_only_on_request Runs.network Runs.float
                    (Runs.args 0 0 1 (inl 15))) eq_refl eq_refl eq_refl).
Defined.

(** X17, at an input.
    In CSV mode the header row comes first and the row of the host that
    does not answer is written with ';'. *)
Lemma one_delimiter_witness :
  hd_error (Main.out (snd (Main.main Runs.network Runs.float
                             (Runs.args 1 1 0 (inl 15)) Main.start)))
  = Some header
  /\ ";"%char = delimiter_of (Runs.args 1 1 0 (inl 15)).
Proof.
  split.
  - exact (proj2 (one_delimiter Runs.network Runs.float
                    (Runs.args 1 1 0 (inl 15)))
                 15 365 Scenario.ten_seconds eq_refl eq_refl eq_refl eq_refl).
  - refine (proj1 (one_delimiter Runs.network Runs.float
                     (Runs.args 1 1 0 (inl 15)))
                  (Main.writerow ";" ["down.example:8443"; "connect timeout"])
                  ";"%char _ eq_refl).
    vm_compute. right. right. right. left. reflexivity.
Defined.


(** X19, at an input.
    [--low 1000000000]: OverflowError at the first host, nothing called
    and nothing written. *)
Lemma limit_out_of_range_witness :
  exists err,
    exc_cls err = OtherException
    /\ Main.main Runs.healthy Runs.float (Runs.args 1 0 1 (inr "1000000000"))
                 Main.start
       = (Raise (Foreign err), Main.mk_run initial []).
Proof.
  exact (limit_out_of_range Runs.healthy Runs.float
           (Runs.args 1 0 1 (inr "1000000000")) 1000000000 365
           Scenario.ten_seconds "example.com"
           ["old.example"; "down.example:8443"]
           (mk_service "example.com" None 443 (Some "example.com"))
           eq_refl eq_refl eq_refl (or_intror eq_refl) eq_refl eq_refl).
Defined.

(** X20, at an input.
    With the check on, the checker answers with two lines for the second
    of three hosts: IndexError, after the row of the first host and the
    calls of the first two. *)
Lemma uncaught_failure_stops_witness :
  Main.for_each ["example.com"; "old.example"; "down.example"]
    (Main.check Runs.flaky_checker ":" 1 0 0 1 15 365 Scenario.ten_seconds)
    Main.start
  = (Raise IndexError,
     Main.mk_run
       (mk_state [ev_connect (Some "example.com") 443 Scenario.ten_seconds;
                  ev_handshake (Some "example.com");
                  ev_strptime "May 23 00:00:00 2027 GMT";
                  ev_strptime "Oct 25 00:00:00 2026 GMT";
                  ev_utcnow; ev_utcnow; ev_ocsp Scenario.example_com;
                  ev_connect (Some "old.example") 443 Scenario.ten_seconds;
                  ev_handshake (Some "old.example");
                  ev_strptime "May 23 00:00:00 2027 GMT";
                  ev_strptime "Oct 25 00:00:00 2026 GMT";
                  ev_utcnow; ev_utcnow;
                  ev_ocsp (mk_service "old.example" None 443
                                      (Some "old.example"))] 4)
       [Main.writerow ":" ["example.com"; "OK"]]).
Proof.
  refine (uncaught_failure_stops Runs.flaky_checker ":" 1 0 0 1 15 365
            Scenario.ten_seconds ["example.com"] "old.example"
            ["down.example"]
            (mk_service "old.example" None 443 (Some "old.example"))
            (days 15) (days 365) IndexError _ Main.start _
            eq_refl eq_refl eq_refl eq_refl eq_refl _).
  intros H. exact H.
Defined.
